(** * garagemq: exchange routing, exchange declare and the BuntDB storage

    A shallow embedding of the Go sources
    - package [exchange]   (exchange type table, bindings, routing, record codec),
    - package [interfaces] (the [Binding] method set),
    - package [server]     ([Channel.exchangeDeclare]),
    - package [storage]    (the BuntDB wrapper),
    followed by the properties established about them.

    Conventions.  A Go [byte] is a [Byte.byte]; a Go [string] is a [string]
    (a sequence of octets); [[]byte] is [list byte]; a Go [error] is an
    [option] whose [None] is [nil]; a Go [map] is a [gmap]; a function with
    several results returns a tuple in the order of the Go results. *)

From Stdlib Require Import Strings.Byte Strings.String Strings.Ascii NArith DecimalString.
From stdpp Require Import gmap strings list fin_maps sorting.

#[global] Instance byte_eq_dec : EqDecision byte := Byte.byte_eq_dec.
#[global] Instance byte_countable : Countable byte :=
  inj_countable Byte.to_N Byte.of_N Byte.of_to_N.

(** ** Package fmt: the three verbs the sources use *)
Module fmt.

(** [%d] of a byte: its decimal numeral. *)
Definition verb_d (b : byte) : string :=
  NilZero.string_of_uint (N.to_uint (Byte.to_N b)).

(** [%s] of a string: the string itself. *)
Definition verb_s (s : string) : string := s.

(** [%s] of a bool: Go's fmt has no such verb for booleans and prints the
    bad-verb form. *)
Definition verb_s_bool (b : bool) : string :=
  ("%!s(bool=" ++ (if b then "true" else "false") ++ ")")%string.

End fmt.

(** ** Package amqp (outside src): what the sources use of it *)
Module amqp.

(** [amqp.Table], an opaque mapping of string to value; only stored. *)
Definition Table : Type := list (string * string).

(** [amqp.Message]: the two fields routing reads. *)
Module Message.
Record t := mk { Exchange : string; RoutingKey : string }.
End Message.

(** [amqp.ExchangeDeclare]: the fields [exchangeDeclare] reads ([Type] is
    spelled [Type_]). *)
Module ExchangeDeclare.
Record t := mk {
    Exchange : string;
    Type_ : string;
    Passive : bool;
    Durable : bool;
    AutoDelete : bool;
    Internal : bool;
    NoWait : bool;
    Arguments : option Table }.
End ExchangeDeclare.

(** Methods a channel sends back. *)
Inductive Method := ExchangeDeclareOk.

(** The reply codes [exchangeDeclare] names. *)
Inductive ReplyCode :=
  NotImplemented | CommandInvalid | NotFound | AccessRefused | PreconditionFailed.

Inductive ErrorType := ErrorOnConnection | ErrorOnChannel.

Record Error := mkError {
  ReplyCode_ : ReplyCode;
  ReplyText : string;
  ClassID : N;
  MethodID : N;
  ErrType : ErrorType }.

Definition NewChannelError (code : ReplyCode) (text : string) (classID methodID : N) : Error :=
  mkError code text classID methodID ErrorOnChannel.

(** The low eight bits of a length, as the octet written in front of a
    short string. *)
Definition octet_of_nat (n : nat) : byte :=
  default Byte.x00 (Byte.of_N (N.of_nat n mod 256)).

(** Modelled from the spec: amqp.WriteOctet, which appends one octet to the
    buffer (the record's [kind] is a single byte). *)
Definition WriteOctet (buf : list byte) (b : byte) : list byte := buf ++ [b].

(** Modelled from the spec: amqp.WriteShortstr, which appends a
    length-prefixed string: one length octet (an AMQP short string), then
    the octets of the string. *)
Definition WriteShortstr (buf : list byte) (s : string) : list byte :=
  WriteOctet buf (octet_of_nat (String.length s)) ++ list_byte_of_string s.

(** Modelled from the spec: amqp.ReadOctet, which reads one octet from the
    reader; at the end of the data it returns 0 and an error.  The third
    component is what is left to read. *)
Definition ReadOctet (r : list byte) : byte * option string * list byte :=
  match r with
  | [] => (Byte.x00, Some "EOF"%string, [])
  | b :: r' => (b, None, r')
  end.

(** Modelled from the spec: amqp.ReadShortstr, which reads the length octet
    and then that many octets; when fewer are left it returns the empty
    string and an error. *)
Definition ReadShortstr (r : list byte) : string * option string * list byte :=
  match ReadOctet r with
  | (n, None, r') =>
      let len := N.to_nat (Byte.to_N n) in
      if decide (len ≤ length r')
      then (string_of_list_byte (take len r'), None, drop len r')
      else (""%string, Some "unexpected EOF"%string, [])
  | (_, Some e, r') => (""%string, Some e, r')
  end.

End amqp.

(** ** Package interfaces *)
Module interfaces.

(** [interfaces.Binding]: the method set of a binding. *)
Class Binding (B : Type) := {
  MatchDirect : B → string → string → bool;
  MatchFanout : B → string → bool;
  MatchTopic : B → string → string → bool;
  GetExchange : B → string;
  GetRoutingKey : B → string;
  GetQueue : B → string;
  Equal : B → B → bool }.

(** Modelled from the spec: interfaces.Operation and its kinds OpSet and
    OpDel (declared outside src): an operation of a batch is
    {kind: Set|Delete, key, value}. *)
Inductive OpKind := OpSet | OpDel.

#[global] Instance OpKind_eq_dec : EqDecision OpKind.
Proof. solve_decision. Defined.

Module Operation.
Record t := mk { Op : OpKind; Key : string; Value : list byte }.
End Operation.

End interfaces.

(** ** Package binding (outside src) *)
Module binding.

(** Modelled from the spec: binding.Binding, a rule with the source exchange
    name, the routing key or pattern and the destination queue. *)
Record t := mk { Exchange : string; RoutingKey : string; Queue : string }.

(** Words of a routing key or pattern: split on the delimiter [.]. *)
Fixpoint words (s : string) : list string :=
  match s with
  | EmptyString => [EmptyString]
  | String c s' =>
      if Ascii.eqb c "."
      then EmptyString :: words s'
      else match words s' with
           | w :: ws => String c w :: ws
           | [] => [String c EmptyString]
           end
  end.

Fixpoint suffixes (key : list string) : list (list string) :=
  key :: match key with [] => [] | _ :: key' => suffixes key' end.

(** Modelled from the spec: the topic-matching rule of binding.MatchTopic:
    [*] matches exactly one word, [#] matches zero or more words, any other
    pattern word matches itself. *)
Fixpoint matchWords (pattern key : list string) : bool :=
  match pattern with
  | [] => match key with [] => true | _ :: _ => false end
  | p :: pattern' =>
      if String.eqb p "#"
      then existsb (matchWords pattern') (suffixes key)
      else match key with
           | [] => false
           | k :: key' => (String.eqb p "*" || String.eqb p k) && matchWords pattern' key'
           end
  end.

(** Modelled from the spec: binding.MatchDirect, true when (exchange,
    routingKey) of the binding equals the given (exchange, routingKey)
    exactly. *)
Definition MatchDirect (b : t) (exchange routingKey : string) : bool :=
  String.eqb (Exchange b) exchange && String.eqb (RoutingKey b) routingKey.

(** Modelled from the spec: binding.MatchFanout, true when the bound exchange
    name equals the given exchange name, whatever the routing key. *)
Definition MatchFanout (b : t) (exchange : string) : bool :=
  String.eqb (Exchange b) exchange.

(** Modelled from the spec: binding.MatchTopic, true when the binding's
    pattern matches the routing key under the topic-matching rule. *)
Definition MatchTopic (b : t) (exchange routingKey : string) : bool :=
  matchWords (words (RoutingKey b)) (words routingKey).

(** Modelled from the spec: binding.Equal, two bindings are equal iff all
    fields are equal. *)
Definition Equal (b bB : t) : bool :=
  String.eqb (Exchange b) (Exchange bB)
  && String.eqb (RoutingKey b) (RoutingKey bB)
  && String.eqb (Queue b) (Queue bB).

#[global] Instance Binding_t : interfaces.Binding t := {|
  interfaces.MatchDirect := MatchDirect;
  interfaces.MatchFanout := MatchFanout;
  interfaces.MatchTopic := MatchTopic;
  interfaces.GetExchange := Exchange;
  interfaces.GetRoutingKey := RoutingKey;
  interfaces.GetQueue := Queue;
  interfaces.Equal := Equal |}.

End binding.

(** ** Package exchange *)
Module exchange.

(** available exchange types *)
Definition ExTypeDirect : byte := Byte.x01.
Definition ExTypeFanout : byte := Byte.x02.
Definition ExTypeTopic : byte := Byte.x03.
Definition ExTypeHeaders : byte := Byte.x04.

Definition exchangeTypeIDAliasMap : gmap byte string :=
  list_to_map [ (ExTypeDirect, "direct"%string);
                (ExTypeFanout, "fanout"%string);
                (ExTypeTopic, "topic"%string);
                (ExTypeHeaders, "headers"%string) ].

Definition exchangeTypeAliasIDMap : gmap string byte :=
  list_to_map [ ("direct"%string, ExTypeDirect);
                ("fanout"%string, ExTypeFanout);
                ("topic"%string, ExTypeTopic);
                ("headers"%string, ExTypeHeaders) ].

(** GetExchangeTypeAlias returns exchange type alias by id *)
Definition GetExchangeTypeAlias (id : byte) : string * option string :=
  match exchangeTypeIDAliasMap !! id with
  | Some alias => (alias, None)
  | None => (""%string, Some ("undefined exchange type '" ++ fmt.verb_d id ++ "'")%string)
  end.

(** GetExchangeTypeID returns exchange type id by alias *)
Definition GetExchangeTypeID (alias : string) : byte * option string :=
  match exchangeTypeAliasIDMap !! alias with
  | Some id => (id, None)
  | None => (Byte.x00, Some ("undefined exchange alias '" ++ fmt.verb_s alias ++ "'")%string)
  end.

Section Exchange.
Context {B : Type} `{!interfaces.Binding B}.

(** Exchange implements AMQP-exchange.  The mutex [bindLock] is not a field
    here: a method that locks on entry and unlocks on return is a function
    from an exchange to an exchange; the lock and the order of the single
    memory accesses are the subject of [Module sched]. *)
Record Exchange := mkExchange {
  Name : string;
  exType : byte;
  durable : bool;
  autoDelete : bool;
  internal : bool;
  system : bool;
  arguments : option amqp.Table;
  bindings : list B }.

Definition set_bindings (ex : Exchange) (bs : list B) : Exchange :=
  mkExchange (Name ex) (exType ex) (durable ex) (autoDelete ex) (internal ex)
             (system ex) (arguments ex) bs.

(** NewExchange returns new instance of Exchange *)
Definition NewExchange (name : string) (exType : byte)
    (durable autoDelete internal system : bool) : Exchange :=
  mkExchange name exType durable autoDelete internal system None [].

(** Modelled from the spec: exchange.New, the seven-argument constructor
    that [exchangeDeclare] calls (src has the six-argument NewExchange): a
    pure constructor storing the fields as given. *)
Definition New (name : string) (exType : byte)
    (durable autoDelete internal system : bool) (arguments : option amqp.Table) : Exchange :=
  mkExchange name exType durable autoDelete internal system arguments [].

(** The range loop of AppendBinding: [true] when it returns early, because
    some binding of the slice equals [newBind]. *)
Fixpoint AppendBinding_range (bs : list B) (newBind : B) : bool :=
  match bs with
  | [] => false
  | bind :: rest =>
      if interfaces.Equal bind newBind then true else AppendBinding_range rest newBind
  end.

(** AppendBinding check and append binding *)
Definition AppendBinding (ex : Exchange) (newBind : B) : Exchange :=
  if AppendBinding_range (bindings ex) newBind
  then ex
  else set_bindings ex (bindings ex ++ [newBind]).

(** The range loop of RemoveBinding over the slice: at the first index [i]
    whose binding equals [rmBind] the result is
    [append(bindings[:i], bindings[i+1:]...)]; without one, the slice. *)
Fixpoint RemoveBinding_range (bs : list B) (rmBind : B) : list B :=
  match bs with
  | [] => []
  | bind :: rest =>
      if interfaces.Equal bind rmBind then rest else bind :: RemoveBinding_range rest rmBind
  end.

(** RemoveBinding remove binding *)
Definition RemoveBinding (ex : Exchange) (rmBind : B) : Exchange :=
  set_bindings ex (RemoveBinding_range (bindings ex) rmBind).

(** The range loop of RemoveQueueBindings with its two accumulators
    (newBindings, removedBindings). *)
Fixpoint RemoveQueueBindings_range (bs : list B) (queueName : string)
    (newBindings removedBindings : list B) : list B * list B :=
  match bs with
  | [] => (newBindings, removedBindings)
  | bind :: rest =>
      if negb (String.eqb (interfaces.GetQueue bind) queueName)
      then RemoveQueueBindings_range rest queueName (newBindings ++ [bind]) removedBindings
      else RemoveQueueBindings_range rest queueName newBindings (removedBindings ++ [bind])
  end.

(** RemoveQueueBindings remove bindings for queue and return removed bindings *)
Definition RemoveQueueBindings (ex : Exchange) (queueName : string) : list B * Exchange :=
  let '(newBindings, removedBindings) :=
    RemoveQueueBindings_range (bindings ex) queueName [] [] in
  (removedBindings, set_bindings ex newBindings).

(** The loop of the direct case: returns at the first match. *)
Fixpoint GetMatchedQueues_direct (bs : list B) (message : amqp.Message.t)
    (matchedQueues : gmap string bool) : gmap string bool :=
  match bs with
  | [] => matchedQueues
  | bind :: rest =>
      if interfaces.MatchDirect bind (amqp.Message.Exchange message)
                                     (amqp.Message.RoutingKey message)
      then <[interfaces.GetQueue bind := true]> matchedQueues
      else GetMatchedQueues_direct rest message matchedQueues
  end.

(** The loop of the fanout case. *)
Fixpoint GetMatchedQueues_fanout (bs : list B) (message : amqp.Message.t)
    (matchedQueues : gmap string bool) : gmap string bool :=
  match bs with
  | [] => matchedQueues
  | bind :: rest =>
      GetMatchedQueues_fanout rest message
        (if interfaces.MatchFanout bind (amqp.Message.Exchange message)
         then <[interfaces.GetQueue bind := true]> matchedQueues
         else matchedQueues)
  end.

(** The loop of the topic case. *)
Fixpoint GetMatchedQueues_topic (bs : list B) (message : amqp.Message.t)
    (matchedQueues : gmap string bool) : gmap string bool :=
  match bs with
  | [] => matchedQueues
  | bind :: rest =>
      GetMatchedQueues_topic rest message
        (if interfaces.MatchTopic bind (amqp.Message.Exchange message)
                                       (amqp.Message.RoutingKey message)
         then <[interfaces.GetQueue bind := true]> matchedQueues
         else matchedQueues)
  end.

(** GetMatchedQueues returns queues matched for message routing key: the
    switch on [exType] has the three cases direct, fanout and topic and no
    default. *)
Definition GetMatchedQueues (ex : Exchange) (message : amqp.Message.t) : gmap string bool :=
  let matchedQueues : gmap string bool := ∅ in
  if decide (exType ex = ExTypeDirect) then
    GetMatchedQueues_direct (bindings ex) message matchedQueues
  else if decide (exType ex = ExTypeFanout) then
    GetMatchedQueues_fanout (bindings ex) message matchedQueues
  else if decide (exType ex = ExTypeTopic) then
    GetMatchedQueues_topic (bindings ex) message matchedQueues
  else matchedQueues.

(** GetBindings returns exchange's bindings *)
Definition GetBindings (ex : Exchange) : list B := bindings ex.

Definition IsDurable (ex : Exchange) : bool := durable ex.
Definition IsSystem (ex : Exchange) : bool := system ex.
Definition IsAutoDelete (ex : Exchange) : bool := autoDelete ex.
Definition IsInternal (ex : Exchange) : bool := internal ex.
Definition GetName (ex : Exchange) : string := Name ex.
Definition ExType (ex : Exchange) : byte := exType ex.

(** The error text of EqualWithErr: errTemplate with its four [%s]. *)
Definition errTemplate (arg name received current : string) : string :=
  ("inequivalent arg '" ++ arg ++ "' for exchange '" ++ name
   ++ "': received '" ++ received ++ "' but current is '" ++ current ++ "'")%string.

(** EqualWithErr returns is given exchange equal to current *)
Definition EqualWithErr (ex exB : Exchange) : option string :=
  if negb (bool_decide (exType ex = ExType exB)) then
    let aliasA := fst (GetExchangeTypeAlias (exType ex)) in
    let aliasB := fst (GetExchangeTypeAlias (ExType exB)) in
    Some (errTemplate "type" (Name ex) (fmt.verb_s aliasB) (fmt.verb_s aliasA))
  else if negb (Bool.eqb (durable ex) (IsDurable exB)) then
    Some (errTemplate "durable" (Name ex)
            (fmt.verb_s_bool (IsDurable exB)) (fmt.verb_s_bool (durable ex)))
  else if negb (Bool.eqb (autoDelete ex) (IsAutoDelete exB)) then
    Some (errTemplate "autoDelete" (Name ex)
            (fmt.verb_s_bool (IsAutoDelete exB)) (fmt.verb_s_bool (autoDelete ex)))
  else if negb (Bool.eqb (internal ex) (IsInternal exB)) then
    Some (errTemplate "internal" (Name ex)
            (fmt.verb_s_bool (IsInternal exB)) (fmt.verb_s_bool (internal ex)))
  else None.

(** Marshal returns raw representation of exchange to store into storage *)
Definition Marshal (ex : Exchange) (protoVersion : string) : list byte :=
  let buf : list byte := [] in
  let buf := amqp.WriteShortstr buf (Name ex) in
  let buf := amqp.WriteOctet buf (exType ex) in
  buf.

(** Unmarshal returns exchange from storage raw bytes data: it assigns
    Name, exType and durable of the receiver and leaves its other fields. *)
Definition Unmarshal (ex : Exchange) (data : list byte) : Exchange :=
  let buf := data in
  let '(name, _, buf) := amqp.ReadShortstr buf in
  let '(exType, _, buf) := amqp.ReadOctet buf in
  mkExchange name exType true (autoDelete ex) (internal ex) (system ex)
             (arguments ex) (bindings ex).

(** No binding of the slice equals a later one, by [Equal]. *)
Fixpoint distinct (bs : list B) : Prop :=
  match bs with
  | [] => True
  | bind :: rest => (∀ later, later ∈ rest → interfaces.Equal bind later = false) ∧ distinct rest
  end.

(** The exchanges that the constructor and the methods that assign
    [bindings] produce. *)
Inductive reachable : Exchange → Prop :=
| reachable_NewExchange name exType durable autoDelete internal system :
    reachable (NewExchange name exType durable autoDelete internal system)
| reachable_AppendBinding ex newBind :
    reachable ex → reachable (AppendBinding ex newBind)
| reachable_RemoveBinding ex rmBind :
    reachable ex → reachable (RemoveBinding ex rmBind)
| reachable_RemoveQueueBindings ex queueName :
    reachable ex → reachable (snd (RemoveQueueBindings ex queueName))
| reachable_Unmarshal ex data :
    reachable ex → reachable (Unmarshal ex data).

End Exchange.

Arguments Exchange B : clear implicits.

End exchange.

(** ** tidwall/buntdb (a dependency, outside src): transactions as the
    wrapper uses them, seen from inside one process.  [DB] holds what reads
    of the running process see; the data file that NewBuntDB opens is not
    part of it, so nothing below speaks of what a store holds when it is
    opened again. *)
Module buntdb.

Inductive error := ErrNotFound | ErrDatabaseClosed | ErrPersist.

(** A database: whether it was closed, and the committed key/value pairs. *)
Record DB := mkDB { closed : bool; committed : gmap string string }.

(** A transaction works on the pairs it started from. *)
Abbreviation Tx := (gmap string string).

(** tx.Get: the value, or ErrNotFound. *)
Definition Get (tx : Tx) (key : string) : string * option error :=
  match tx !! key with
  | Some val => (val, None)
  | None => (""%string, Some ErrNotFound)
  end.

(** tx.Set: (previous value, replaced, err) and the transaction after it. *)
Definition Set_ (tx : Tx) (key value : string) : (string * bool * option error) * Tx :=
  match tx !! key with
  | Some prev => ((prev, true, None), <[key := value]> tx)
  | None => ((""%string, false, None), <[key := value]> tx)
  end.

(** tx.Delete: (deleted value, err) and the transaction after it; deleting
    a key that is not there is ErrNotFound. *)
Definition Delete (tx : Tx) (key : string) : (string * option error) * Tx :=
  match tx !! key with
  | Some val => ((val, None), delete key tx)
  | None => ((""%string, Some ErrNotFound), tx)
  end.

(** db.View: runs [fn] on a read-only transaction and returns its error.
    [captured] is the variable of the enclosing function that the closure
    assigns; [fn] returns its new value. *)
Definition View {A : Type} (db : DB) (fn : Tx → A → A * option error) (captured : A)
    : A * option error :=
  if closed db then (captured, Some ErrDatabaseClosed)
  else fn (committed db) captured.

(** Modelled from the spec: db.Update of tidwall/buntdb (outside src), as
    the transaction of the storage engine that the spec describes, in
    process: it runs [fn] on a writable transaction; an error of [fn] rolls
    back; otherwise the transaction commits, and a commit whose write to the
    file fails ([persist = false], an engine-level error) rolls back what
    the process sees.  What the failed write left in the data file is not
    modelled. *)
Definition Update (db : DB) (persist : bool) (fn : Tx → Tx * option error)
    : DB * option error :=
  if closed db then (db, Some ErrDatabaseClosed)
  else match fn (committed db) with
       | (_, Some err) => (db, Some err)
       | (tx, None) =>
           if persist then (mkDB (closed db) tx, None) else (db, Some ErrPersist)
       end.

(** Keys are ordered as Go orders strings: octet by octet. *)
Definition key_le (p q : string * string) : Prop := String.leb (fst p) (fst q) = true.

#[global] Instance key_le_dec : RelDecision key_le.
Proof. intros p q. unfold key_le. apply _. Defined.

(** The pairs of a transaction by ascending key. *)
Definition ascending (tx : Tx) : list (string * string) :=
  merge_sort key_le (map_to_list tx).

(** The calls of an iterator over the pairs, until it returns false.
    [captured] is the state that the iterator reads and assigns. *)
Fixpoint Ascend_range {A : Type} (pairs : list (string * string))
    (iterator : string → string → A → A * bool) (captured : A) : A :=
  match pairs with
  | [] => captured
  | (key, value) :: rest =>
      let '(captured, continue) := iterator key value captured in
      if continue then Ascend_range rest iterator captured else captured
  end.

(** tx.Ascend with the empty index name: every pair, by ascending key. *)
Definition Ascend {A : Type} (tx : Tx) (iterator : string → string → A → A * bool)
    (captured : A) : A * option error :=
  (Ascend_range (ascending tx) iterator captured, None).

End buntdb.

(** ** Package storage *)
Module storage.

(** BuntDB implements wrapper for BuntDB database *)
Record BuntDB := mkBuntDB { db : buntdb.DB }.

(** The body of the loop of ProcessBatch: the two [if]s, the results of
    tx.Set and tx.Delete dropped. *)
Definition ProcessBatch_op (tx : buntdb.Tx) (op : interfaces.Operation.t) : buntdb.Tx :=
  let tx :=
    if decide (interfaces.Operation.Op op = interfaces.OpSet)
    then snd (buntdb.Set_ tx (interfaces.Operation.Key op)
                (string_of_list_byte (interfaces.Operation.Value op)))
    else tx in
  let tx :=
    if decide (interfaces.Operation.Op op = interfaces.OpDel)
    then snd (buntdb.Delete tx (interfaces.Operation.Key op))
    else tx in
  tx.

Fixpoint ProcessBatch_range (batch : list interfaces.Operation.t) (tx : buntdb.Tx) : buntdb.Tx :=
  match batch with
  | [] => tx
  | op :: rest => ProcessBatch_range rest (ProcessBatch_op tx op)
  end.

(** ProcessBatch process batch of operations *)
Definition ProcessBatch (storage : BuntDB) (persist : bool)
    (batch : list interfaces.Operation.t) : BuntDB * option buntdb.error :=
  let '(db', err) :=
    buntdb.Update (db storage) persist
      (fun tx => (ProcessBatch_range batch tx, None)) in
  (mkBuntDB db', err).

(** Set adds a key-value pair to the database *)
Definition Set_ (storage : BuntDB) (persist : bool) (key : string) (value : list byte)
    : BuntDB * option buntdb.error :=
  let '(db', err) :=
    buntdb.Update (db storage) persist
      (fun tx => let '(_, _, err, tx') := buntdb.Set_ tx key (string_of_list_byte value) in
                 (tx', err)) in
  (mkBuntDB db', err).

(** Del deletes a key *)
Definition Del (storage : BuntDB) (persist : bool) (key : string)
    : BuntDB * option buntdb.error :=
  let '(db', err) :=
    buntdb.Update (db storage) persist
      (fun tx => let '(_, err, tx') := buntdb.Delete tx key in (tx', err)) in
  (mkBuntDB db', err).

(** Get returns value by key.  The results are named (value, err); the
    closure declares an [err] of its own and assigns [value]; the error that
    db.View returns is dropped, and the bare [return] gives back the named
    results, of which [err] was never assigned. *)
Definition Get (storage : BuntDB) (key : string) : option (list byte) * option buntdb.error :=
  let value : option (list byte) := None in
  let err : option buntdb.error := None in
  let '(value, _) :=
    buntdb.View (db storage)
      (fun tx value =>
         match buntdb.Get tx key with
         | (_, Some err) => (value, Some err)
         | (data, None) => (Some (list_byte_of_string data), None)
         end) value in
  (value, err).

(** Iterate iterates over all keys.  [fn] acts on the state [captured] of
    its caller; the iterator given to tx.Ascend always returns true, and the
    error of db.View is dropped. *)
Definition Iterate {A : Type} (storage : BuntDB)
    (fn : list byte → list byte → A → A) (captured : A) : A :=
  fst (buntdb.View (db storage)
         (fun tx captured =>
            buntdb.Ascend tx
              (fun key value captured =>
                 (fn (list_byte_of_string key) (list_byte_of_string value) captured, true))
              captured)
         captured).

(** What a batch leaves under one key: the last operation of the batch on
    that key decides (a set leaves its value, a delete leaves nothing); a key
    the batch does not name keeps what it had. *)
Fixpoint batch_effect (batch : list interfaces.Operation.t) (key : string)
    (before : option string) : option string :=
  match batch with
  | [] => before
  | op :: rest =>
      batch_effect rest key
        (if decide (interfaces.Operation.Key op = key)
         then match interfaces.Operation.Op op with
              | interfaces.OpSet =>
                  Some (string_of_list_byte (interfaces.Operation.Value op))
              | interfaces.OpDel => None
              end
         else before)
  end.

End storage.

(** ** Package server *)
Module server.

Section Channel.
Context {B : Type} `{!interfaces.Binding B}.

(** ClassIdentifier and MethodIdentifier of the method (package amqp). *)
Variables ClassIdentifier MethodIdentifier : amqp.ExchangeDeclare.t → N.

(** Modelled from the spec: the exchange registry of a virtual host, which
    maps exchange name to Exchange (VirtualHost.GetExchange and
    VirtualHost.AppendExchange are outside src). *)
Record VirtualHost := mkVirtualHost { exchanges : gmap string (exchange.Exchange B) }.

Definition GetExchange (vhost : VirtualHost) (name : string) : option (exchange.Exchange B) :=
  exchanges vhost !! name.

Definition AppendExchange (vhost : VirtualHost) (ex : exchange.Exchange B) : VirtualHost :=
  mkVirtualHost (<[exchange.GetName ex := ex]> (exchanges vhost)).

(** What exchangeDeclare reaches through the channel: the virtual host of
    its connection and the methods sent to the client so far. *)
Record Channel := mkChannel { vhost : VirtualHost; sent : list amqp.Method }.

Definition SendMethod (channel : Channel) (method : amqp.Method) : Channel :=
  mkChannel (vhost channel) (sent channel ++ [method]).

Definition exchangeDeclare (channel : Channel) (method : amqp.ExchangeDeclare.t)
    : option amqp.Error * Channel :=
  let classID := ClassIdentifier method in
  let methodID := MethodIdentifier method in
  match exchange.GetExchangeTypeID (amqp.ExchangeDeclare.Type_ method) with
  | (_, Some err) =>
      (Some (amqp.NewChannelError amqp.NotImplemented err classID methodID), channel)
  | (exTypeId, None) =>
      if String.eqb (amqp.ExchangeDeclare.Exchange method) "" then
        (Some (amqp.NewChannelError amqp.CommandInvalid "exchange name is requred"
                 classID methodID), channel)
      else
        let existingExchange :=
          GetExchange (vhost channel) (amqp.ExchangeDeclare.Exchange method) in
        if amqp.ExchangeDeclare.Passive method then
          if amqp.ExchangeDeclare.NoWait method then (None, channel)
          else match existingExchange with
               | None =>
                   (Some (amqp.NewChannelError amqp.NotFound
                            ("exchange '" ++ amqp.ExchangeDeclare.Exchange method
                             ++ "' not found")%string classID methodID), channel)
               | Some _ => (None, SendMethod channel amqp.ExchangeDeclareOk)
               end
        else if String.prefix "amq." (amqp.ExchangeDeclare.Exchange method) then
          (Some (amqp.NewChannelError amqp.AccessRefused
                   ("exchange name '" ++ amqp.ExchangeDeclare.Exchange method
                    ++ "' contains reserved prefix 'amq.*'")%string classID methodID),
           channel)
        else
          let newExchange :=
            exchange.New (amqp.ExchangeDeclare.Exchange method) exTypeId
              (amqp.ExchangeDeclare.Durable method)
              (amqp.ExchangeDeclare.AutoDelete method)
              (amqp.ExchangeDeclare.Internal method)
              false
              (amqp.ExchangeDeclare.Arguments method) in
          match existingExchange with
          | Some existing =>
              match exchange.EqualWithErr existing newExchange with
              | Some err =>
                  (Some (amqp.NewChannelError amqp.PreconditionFailed err classID methodID),
                   channel)
              | None => (None, SendMethod channel amqp.ExchangeDeclareOk)
              end
          | None =>
              (None,
               SendMethod
                 (mkChannel (AppendExchange (vhost channel) newExchange) (sent channel))
                 amqp.ExchangeDeclareOk)
          end
  end.

End Channel.

Arguments VirtualHost B : clear implicits.
Arguments Channel B : clear implicits.

End server.

(** ** The binding slice in memory, and interleavings of two methods

    [ex.bindings] is a slice: a header (backing array, length) stored in the
    exchange.  A [range] loop evaluates the header once and then reads the
    cells of the backing array one per iteration.  In RemoveBinding,
    [append(ex.bindings[:i], ex.bindings[i+1:]...)] has room in the same
    backing array: it moves the cells [i+1 .. len-1] down by one, leaves the
    last cell as it was, and the assignment stores the header with length
    [len-1].  A step below is one statement, or one iteration of a loop, of
    one method; an interleaving is a sequence of such steps. *)
Module sched.

Section Sched.
Context {B : Type} `{!interfaces.Binding B}.

(** The memory of one exchange: the mutex, the backing array of
    [ex.bindings] and the length in its header. *)
Record Mem := mkMem { bindLock : bool; array : list B; len : nat }.

(** The value of [ex.bindings]. *)
Definition slice (m : Mem) : list B := take (len m) (array m).

(** Where a call of RemoveBinding stands. *)
Inductive RemoveBinding_pc :=
| RB_Lock
| RB_range_eval
| RB_range (n i : nat)
| RB_Unlock
| RB_return.

(** One step of RemoveBinding(rmBind); [None] when the call cannot move
    (the mutex is taken, or the call has returned). *)
Definition RemoveBinding_step (rmBind : B) (pc : RemoveBinding_pc) (m : Mem)
    : option (RemoveBinding_pc * Mem) :=
  match pc with
  | RB_Lock =>
      if bindLock m then None
      else Some (RB_range_eval, mkMem true (array m) (len m))
  | RB_range_eval => Some (RB_range (len m) 0, m)
  | RB_range n i =>
      if decide (i < n) then
        match array m !! i with
        | Some bind =>
            if interfaces.Equal bind rmBind then
              Some (RB_Unlock,
                    mkMem (bindLock m)
                          (take i (array m)
                           ++ drop (S i) (take (len m) (array m))
                           ++ drop (len m - 1) (array m))
                          (len m - 1))
            else Some (RB_range n (S i), m)
        | None => None
        end
      else Some (RB_Unlock, m)
  | RB_Unlock => Some (RB_return, mkMem false (array m) (len m))
  | RB_return => None
  end.

(** Where a call of GetMatchedQueues stands; the map built so far travels
    with it. *)
Inductive GetMatchedQueues_pc :=
| GQ_enter
| GQ_range (n i : nat) (matchedQueues : gmap string bool)
| GQ_return (matchedQueues : gmap string bool).

(** One step of GetMatchedQueues(message) on an exchange of type [exType].
    The method has no Lock and no Unlock: none of its steps looks at
    [bindLock]. *)
Definition GetMatchedQueues_step (exType : byte) (message : amqp.Message.t)
    (pc : GetMatchedQueues_pc) (m : Mem) : option (GetMatchedQueues_pc * Mem) :=
  match pc with
  | GQ_enter =>
      if decide (exType = exchange.ExTypeDirect ∨ exType = exchange.ExTypeFanout
                 ∨ exType = exchange.ExTypeTopic)
      then Some (GQ_range (len m) 0 ∅, m)
      else Some (GQ_return ∅, m)
  | GQ_range n i matchedQueues =>
      if decide (i < n) then
        match array m !! i with
        | Some bind =>
            if decide (exType = exchange.ExTypeDirect) then
              if interfaces.MatchDirect bind (amqp.Message.Exchange message)
                                             (amqp.Message.RoutingKey message)
              then Some (GQ_return (<[interfaces.GetQueue bind := true]> matchedQueues), m)
              else Some (GQ_range n (S i) matchedQueues, m)
            else if decide (exType = exchange.ExTypeFanout) then
              Some (GQ_range n (S i)
                      (if interfaces.MatchFanout bind (amqp.Message.Exchange message)
                       then <[interfaces.GetQueue bind := true]> matchedQueues
                       else matchedQueues), m)
            else
              Some (GQ_range n (S i)
                      (if interfaces.MatchTopic bind (amqp.Message.Exchange message)
                                                     (amqp.Message.RoutingKey message)
                       then <[interfaces.GetQueue bind := true]> matchedQueues
                       else matchedQueues), m)
        | None => None
        end
      else Some (GQ_return matchedQueues, m)
  | GQ_return _ => None
  end.

(** The loop of GetMatchedQueues that an exchange type selects, on the
    bindings still to visit. *)
Definition loop_of (exType : byte) (rest : list B) (message : amqp.Message.t)
    (matchedQueues : gmap string bool) : gmap string bool :=
  if decide (exType = exchange.ExTypeDirect) then
    exchange.GetMatchedQueues_direct rest message matchedQueues
  else if decide (exType = exchange.ExTypeFanout) then
    exchange.GetMatchedQueues_fanout rest message matchedQueues
  else exchange.GetMatchedQueues_topic rest message matchedQueues.

(** Two calls running on one exchange: RemoveBinding(rmBind) on one
    goroutine, GetMatchedQueues(message) on another. *)
Inductive Goroutine := Remover | Router.

Record State := mkState {
  remover : RemoveBinding_pc;
  router : GetMatchedQueues_pc;
  mem : Mem }.

Definition step (rmBind : B) (exType : byte) (message : amqp.Message.t)
    (g : Goroutine) (st : State) : option State :=
  match g with
  | Remover =>
      match RemoveBinding_step rmBind (remover st) (mem st) with
      | Some (pc, m) => Some (mkState pc (router st) m)
      | None => None
      end
  | Router =>
      match GetMatchedQueues_step exType message (router st) (mem st) with
      | Some (pc, m) => Some (mkState (remover st) pc m)
      | None => None
      end
  end.

(** Runs a schedule: the goroutines step in the order listed. *)
Fixpoint run (rmBind : B) (exType : byte) (message : amqp.Message.t)
    (schedule : list Goroutine) (st : State) : option State :=
  match schedule with
  | [] => Some st
  | g :: rest =>
      match step rmBind exType message g st with
      | Some st' => run rmBind exType message rest st'
      | None => None
      end
  end.

(** Both calls at their first statement, on an exchange whose mutex is free
    and whose bindings fill their backing array. *)
Definition start (ex : exchange.Exchange B) : State :=
  mkState RB_Lock GQ_enter
          (mkMem false (exchange.bindings ex) (length (exchange.bindings ex))).

End Sched.

Arguments Mem B : clear implicits.
Arguments State B : clear implicits.

End sched.

(** ** Sample topologies and requests *)
Module sample.

Definition bind (exchange routingKey queue : string) : binding.t :=
  binding.mk exchange routingKey queue.

(** A direct exchange with bindings a -> q1 and b -> q2. *)
Definition direct_ab : exchange.Exchange binding.t :=
  exchange.AppendBinding
    (exchange.AppendBinding
       (exchange.NewExchange "orders" exchange.ExTypeDirect true false false false)
       (bind "orders" "a" "q1"))
    (bind "orders" "b" "q2").

(** A headers exchange with one binding to q1. *)
Definition headers_q1 : exchange.Exchange binding.t :=
  exchange.AppendBinding
    (exchange.NewExchange "hdr" exchange.ExTypeHeaders true false false false)
    (bind "hdr" "" "q1").

(** A fanout exchange with bindings to q1, q2 and q3. *)
Definition fanout_123 : exchange.Exchange binding.t :=
  exchange.AppendBinding
    (exchange.AppendBinding
       (exchange.AppendBinding
          (exchange.NewExchange "logs" exchange.ExTypeFanout false false false false)
          (bind "logs" "" "q1"))
       (bind "logs" "" "q2"))
    (bind "logs" "" "q3").

Definition msg (exchange routingKey : string) : amqp.Message.t :=
  amqp.Message.mk exchange routingKey.

(** The router evaluates its range and reads cell 0; the remover locks,
    finds its binding in cell 0 and shifts the cells; the router reads
    cells 1 and 2 and returns; the remover unlocks. *)
Definition racy_schedule : list sched.Goroutine :=
  [ sched.Router; sched.Router;
    sched.Remover; sched.Remover; sched.Remover;
    sched.Router; sched.Router; sched.Router;
    sched.Remover ].

(** A name of 256 octets. *)
Definition long_name : string :=
  string_of_list_byte (replicate 256 "a"%byte).

Definition long_named : exchange.Exchange binding.t :=
  exchange.NewExchange long_name exchange.ExTypeDirect true false false false.

(** A fanout exchange that is not durable, and the zero exchange that
    recovery decodes into. *)
Definition volatile : exchange.Exchange binding.t :=
  exchange.NewExchange "logs" exchange.ExTypeFanout false true true false.

Definition blank : exchange.Exchange binding.t :=
  exchange.NewExchange "" Byte.x00 false false false false.

Definition ids (method : amqp.ExchangeDeclare.t) : N := 0%N.

(** A channel on a virtual host that holds the exchange amq.direct. *)
Definition amq_direct : exchange.Exchange binding.t :=
  exchange.NewExchange "amq.direct" exchange.ExTypeDirect true false false true.

Definition channel_amq : server.Channel binding.t :=
  server.mkChannel
    (server.AppendExchange (server.mkVirtualHost ∅) amq_direct) [].

(** A channel on a virtual host that holds the direct exchange orders. *)
Definition channel_orders : server.Channel binding.t :=
  server.mkChannel
    (server.AppendExchange (server.mkVirtualHost ∅) direct_ab) [].

Definition declare (name type : string) (passive durable : bool) : amqp.ExchangeDeclare.t :=
  amqp.ExchangeDeclare.mk name type passive durable false false false None.

(** A store with one committed pair. *)
Definition store_k1 : storage.BuntDB :=
  storage.mkBuntDB (buntdb.mkDB false {[ "k1"%string := "v1"%string ]}).

Definition op_set (key : string) (value : string) : interfaces.Operation.t :=
  interfaces.Operation.mk interfaces.OpSet key (list_byte_of_string value).

Definition op_del (key : string) : interfaces.Operation.t :=
  interfaces.Operation.mk interfaces.OpDel key [].

(** Three sets and one delete. *)
Definition batch4 : list interfaces.Operation.t :=
  [ op_set "a" "1"; op_set "b" "2"; op_del "k1"; op_set "a" "3" ].

End sample.

(** * Properties *)

(** ** The exchange type table *)

Lemma GetExchangeTypeID_known (alias : string) (id : byte) :
  exchange.exchangeTypeAliasIDMap !! alias = Some id →
  exchange.GetExchangeTypeID alias = (id, None)
  ∧ exchange.GetExchangeTypeAlias id = (alias, None).
Proof.
  intros Hl. unfold exchange.GetExchangeTypeID. rewrite Hl. split; [done|].
  apply elem_of_list_to_map_2 in Hl.
  repeat (apply elem_of_cons in Hl as [[= -> ->] | Hl]; [reflexivity|]).
  by apply elem_of_nil in Hl.
Qed.

Lemma GetExchangeTypeID_unknown (alias : string) :
  alias ∉ ["direct"; "fanout"; "topic"; "headers"]%string →
  exchange.GetExchangeTypeID alias
  = (Byte.x00, Some ("undefined exchange alias '" ++ alias ++ "'")%string).
Proof.
  intros Hn. unfold exchange.GetExchangeTypeID, exchange.exchangeTypeAliasIDMap.
  by rewrite (not_elem_of_list_to_map_1 _ alias).
Qed.

Lemma GetExchangeTypeAlias_unknown (id : byte) :
  id ∉ [exchange.ExTypeDirect; exchange.ExTypeFanout;
        exchange.ExTypeTopic; exchange.ExTypeHeaders] →
  exchange.GetExchangeTypeAlias id
  = (""%string, Some ("undefined exchange type '" ++ fmt.verb_d id ++ "'")%string).
Proof.
  intros Hn. unfold exchange.GetExchangeTypeAlias, exchange.exchangeTypeIDAliasMap.
  by rewrite (not_elem_of_list_to_map_1 _ id).
Qed.

(** A type id that GetExchangeTypeID returns has the alias it was asked for. *)
Lemma GetExchangeTypeID_alias (alias : string) (id : byte) :
  exchange.GetExchangeTypeID alias = (id, None) →
  exchange.GetExchangeTypeAlias id = (alias, None).
Proof.
  unfold exchange.GetExchangeTypeID.
  destruct (exchange.exchangeTypeAliasIDMap !! alias) as [id'|] eqn:Hl; [|done].
  intros [= <-]. by apply GetExchangeTypeID_known.
Qed.

(** C10.  The alias and id conversions are mutual inverses on their domains:
    for each of the four aliases GetExchangeTypeID followed by
    GetExchangeTypeAlias gives the alias back without an error; for each of
    the ids 1..4 GetExchangeTypeAlias followed by GetExchangeTypeID gives the
    id back without an error; every other alias and every other id yields an
    error. *)
Theorem exchange_type_conversions_inverse :
  (∀ alias : string, alias ∈ ["direct"; "fanout"; "topic"; "headers"]%string →
     ∃ id, exchange.GetExchangeTypeID alias = (id, None)
           ∧ exchange.GetExchangeTypeAlias id = (alias, None))
  ∧ (∀ id : byte, id ∈ [Byte.x01; Byte.x02; Byte.x03; Byte.x04] →
     ∃ alias, exchange.GetExchangeTypeAlias id = (alias, None)
              ∧ exchange.GetExchangeTypeID alias = (id, None))
  ∧ (∀ alias : string, alias ∉ ["direct"; "fanout"; "topic"; "headers"]%string →
     ∃ err, snd (exchange.GetExchangeTypeID alias) = Some err)
  ∧ (∀ id : byte, id ∉ [Byte.x01; Byte.x02; Byte.x03; Byte.x04] →
     ∃ err, snd (exchange.GetExchangeTypeAlias id) = Some err).
Proof.
  repeat split.
  - intros alias Hin.
    repeat (apply elem_of_cons in Hin as [-> | Hin]; [eexists; split; reflexivity|]).
    by apply elem_of_nil in Hin.
  - intros id Hin.
    repeat (apply elem_of_cons in Hin as [-> | Hin]; [eexists; split; reflexivity|]).
    by apply elem_of_nil in Hin.
  - intros alias Hn. rewrite (GetExchangeTypeID_unknown alias Hn). by eexists.
  - intros id Hn. rewrite (GetExchangeTypeAlias_unknown id Hn). by eexists.
Qed.

Lemma exchange_type_conversions_inverse_witness :
  (∃ id, exchange.GetExchangeTypeID "topic" = (id, None)
         ∧ exchange.GetExchangeTypeAlias id = ("topic"%string, None))
  ∧ (∃ alias, exchange.GetExchangeTypeAlias Byte.x04 = (alias, None)
              ∧ exchange.GetExchangeTypeID alias = (Byte.x04, None))
  ∧ (∃ err, snd (exchange.GetExchangeTypeID "Direct") = Some err)
  ∧ (∃ err, snd (exchange.GetExchangeTypeAlias Byte.x00) = Some err).
Proof.
  destruct exchange_type_conversions_inverse as (Ha & Hi & Hna & Hni).
  split; [apply Ha; set_solver|].
  split; [apply Hi; set_solver|].
  split; [apply Hna|apply Hni].
  - intros Hin. repeat (apply elem_of_cons in Hin as [[=] | Hin]). by apply elem_of_nil in Hin.
  - intros Hin. repeat (apply elem_of_cons in Hin as [[=] | Hin]). by apply elem_of_nil in Hin.
Defined.

(** ** Routing *)

Section Routing.
Context {B : Type} `{!interfaces.Binding B}.
Implicit Types (ex : exchange.Exchange B) (bs : list B) (message : amqp.Message.t).

(** The switch of GetMatchedQueues has no case for a type other than
    direct, fanout and topic: the fresh map is returned as it is. *)
Lemma GetMatchedQueues_other_type ex message :
  exchange.exType ex ≠ exchange.ExTypeDirect →
  exchange.exType ex ≠ exchange.ExTypeFanout →
  exchange.exType ex ≠ exchange.ExTypeTopic →
  exchange.GetMatchedQueues ex message = ∅.
Proof.
  intros Hd Hf Ht. unfold exchange.GetMatchedQueues.
  repeat case_decide; done.
Qed.

(** The direct loop returns at the first binding that matches: what comes
    after it in the slice is not looked at. *)
Lemma GetMatchedQueues_direct_first older bind newer message matchedQueues :
  (∀ b, b ∈ older →
     interfaces.MatchDirect b (amqp.Message.Exchange message)
                              (amqp.Message.RoutingKey message) = false) →
  interfaces.MatchDirect bind (amqp.Message.Exchange message)
                              (amqp.Message.RoutingKey message) = true →
  exchange.GetMatchedQueues_direct (older ++ bind :: newer) message matchedQueues
  = <[interfaces.GetQueue bind := true]> matchedQueues.
Proof.
  intros Holder Hbind. induction older as [|b older IH]; simpl.
  - by rewrite Hbind.
  - rewrite (Holder b) by set_solver. apply IH. intros b' Hb'. apply Holder. set_solver.
Qed.

Lemma GetMatchedQueues_direct_none bs message matchedQueues :
  (∀ b, b ∈ bs →
     interfaces.MatchDirect b (amqp.Message.Exchange message)
                              (amqp.Message.RoutingKey message) = false) →
  exchange.GetMatchedQueues_direct bs message matchedQueues = matchedQueues.
Proof.
  intros Hbs. induction bs as [|b bs IH]; simpl; [done|].
  rewrite (Hbs b) by set_solver. apply IH. intros b' Hb'. apply Hbs. set_solver.
Qed.

Lemma GetMatchedQueues_direct_size bs message :
  size (exchange.GetMatchedQueues_direct bs message ∅) ≤ 1.
Proof.
  induction bs as [|b bs IH]; simpl.
  - rewrite map_size_empty. lia.
  - destruct (interfaces.MatchDirect b _ _); [|done].
    rewrite insert_empty, map_size_singleton. lia.
Qed.

End Routing.

(** C1 (as amended).  For every exchange of kind headers and every message,
    GetMatchedQueues returns the empty map, whatever bindings the exchange
    has: the switch has no headers case and no binding predicate over
    headers is evaluated. *)
Theorem GetMatchedQueues_headers_empty {B : Type} `{!interfaces.Binding B}
    (ex : exchange.Exchange B) (message : amqp.Message.t) :
  exchange.exType ex = exchange.ExTypeHeaders →
  exchange.GetMatchedQueues ex message = ∅.
Proof.
  intros Hh. apply GetMatchedQueues_other_type; rewrite Hh; done.
Qed.

Lemma GetMatchedQueues_headers_empty_witness :
  exchange.GetMatchedQueues sample.headers_q1 (sample.msg "hdr" "k") = ∅.
Proof.
  apply (GetMatchedQueues_headers_empty sample.headers_q1 (sample.msg "hdr" "k")).
  reflexivity.
Defined.

(** C1 as stated fails: the sample headers exchange has a binding to q1, and
    the routing query on it is empty; and no headers exchange and message
    have a non-empty result, so the non-empty result that C1 asserts does
    not exist. *)
Lemma GetMatchedQueues_headers_counterexample :
  exchange.exType sample.headers_q1 = exchange.ExTypeHeaders
  ∧ exchange.bindings sample.headers_q1 = [sample.bind "hdr" "" "q1"]
  ∧ exchange.GetMatchedQueues sample.headers_q1 (sample.msg "hdr" "k") = ∅
  ∧ ¬ (∃ (ex : exchange.Exchange binding.t) (message : amqp.Message.t),
         exchange.exType ex = exchange.ExTypeHeaders
         ∧ exchange.GetMatchedQueues ex message ≠ ∅).
Proof.
  split; [reflexivity|]. split; [reflexivity|]. split; [reflexivity|].
  intros (ex & message & Hh & Hne). apply Hne.
  apply GetMatchedQueues_other_type; rewrite Hh; done.
Qed.

Lemma binding_MatchDirect_true (b : binding.t) (exchange routingKey : string) :
  binding.MatchDirect b exchange routingKey = true
  ↔ binding.Exchange b = exchange ∧ binding.RoutingKey b = routingKey.
Proof.
  unfold binding.MatchDirect. rewrite andb_true_iff, !String.eqb_eq. done.
Qed.

Lemma binding_MatchDirect_false (b : binding.t) (exchange routingKey : string) :
  binding.MatchDirect b exchange routingKey = false
  ↔ ¬ (binding.Exchange b = exchange ∧ binding.RoutingKey b = routingKey).
Proof.
  rewrite <- binding_MatchDirect_true. by destruct (binding.MatchDirect _ _ _).
Qed.

(** C3.  On a direct exchange, GetMatchedQueues returns the queue of the
    first binding, in the order of the slice, whose (exchange, routingKey)
    equals that of the message, and nothing of the bindings after it; when
    no binding matches, the result is empty; in every case the result has at
    most one element. *)
Theorem GetMatchedQueues_direct_first_match
    (ex : exchange.Exchange binding.t) (message : amqp.Message.t) :
  exchange.exType ex = exchange.ExTypeDirect →
  (∀ older bind newer,
     exchange.bindings ex = older ++ bind :: newer →
     (∀ b, b ∈ older →
        ¬ (binding.Exchange b = amqp.Message.Exchange message
           ∧ binding.RoutingKey b = amqp.Message.RoutingKey message)) →
     binding.Exchange bind = amqp.Message.Exchange message →
     binding.RoutingKey bind = amqp.Message.RoutingKey message →
     exchange.GetMatchedQueues ex message = {[ binding.Queue bind := true ]})
  ∧ ((∀ b, b ∈ exchange.bindings ex →
        ¬ (binding.Exchange b = amqp.Message.Exchange message
           ∧ binding.RoutingKey b = amqp.Message.RoutingKey message)) →
     exchange.GetMatchedQueues ex message = ∅)
  ∧ size (exchange.GetMatchedQueues ex message) ≤ 1.
Proof.
  intros Hd. unfold exchange.GetMatchedQueues. rewrite decide_True by done.
  split; [|split].
  - intros older bind newer -> Holder He Hrk.
    rewrite (GetMatchedQueues_direct_first older bind newer); [by rewrite insert_empty| |].
    + intros b Hb. apply binding_MatchDirect_false. by apply Holder.
    + by apply binding_MatchDirect_true.
  - intros Hnone. apply GetMatchedQueues_direct_none.
    intros b Hb. apply binding_MatchDirect_false. by apply Hnone.
  - apply GetMatchedQueues_direct_size.
Qed.

Lemma GetMatchedQueues_direct_first_match_witness :
  exchange.GetMatchedQueues sample.direct_ab (sample.msg "orders" "a")
  = {[ "q1"%string := true ]}
  ∧ exchange.GetMatchedQueues sample.direct_ab (sample.msg "orders" "c") = ∅.
Proof.
  split.
  - apply (proj1 (GetMatchedQueues_direct_first_match sample.direct_ab
                    (sample.msg "orders" "a") eq_refl)
             [] (sample.bind "orders" "a" "q1") [sample.bind "orders" "b" "q2"]).
    + reflexivity.
    + intros b Hb. by apply elem_of_nil in Hb.
    + reflexivity.
    + reflexivity.
  - apply (proj1 (proj2 (GetMatchedQueues_direct_first_match sample.direct_ab
                           (sample.msg "orders" "c") eq_refl))).
    intros b Hb [_ Hrk].
    apply elem_of_cons in Hb as [-> | Hb]; [discriminate Hrk|].
    apply elem_of_cons in Hb as [-> | Hb]; [discriminate Hrk|].
    by apply elem_of_nil in Hb.
Defined.

(** With two bindings that both match, the older one decides. *)
Example GetMatchedQueues_direct_oldest :
  exchange.GetMatchedQueues
    (exchange.AppendBinding sample.direct_ab (sample.bind "orders" "a" "q9"))
    (sample.msg "orders" "a")
  = {[ "q1"%string := true ]}.
Proof. vm_compute. reflexivity. Qed.

(** Fanout: every binding of the exchange receives, whatever the routing
    key. *)
Example GetMatchedQueues_fanout_all :
  exchange.GetMatchedQueues sample.fanout_123 (sample.msg "logs" "any.key")
  = {[ "q1"%string := true; "q2"%string := true; "q3"%string := true ]}.
Proof. vm_compute. reflexivity. Qed.

(** The topic rule on the patterns and keys of the specification. *)
Example MatchTopic_wildcards :
  binding.MatchTopic (sample.bind "t" "*.orange.*" "q") "t" "quick.orange.rabbit" = true
  ∧ binding.MatchTopic (sample.bind "t" "*.orange.*" "q") "t" "orange.rabbit" = false
  ∧ binding.MatchTopic (sample.bind "t" "lazy.#" "q") "t" "lazy" = true
  ∧ binding.MatchTopic (sample.bind "t" "lazy.#" "q") "t" "lazy.pink.rabbit" = true
  ∧ binding.MatchTopic (sample.bind "t" "lazy.#" "q") "t" "lazy.pink.rabbit.fox" = true
  ∧ binding.MatchTopic (sample.bind "t" "#.rabbit" "q") "t" "quick.orange.rabbit" = true
  ∧ binding.MatchTopic (sample.bind "t" "#.rabbit" "q") "t" "rabbit" = true.
Proof. repeat split; reflexivity. Qed.

(** ** The binding set *)

Section Bindings.
Context {B : Type} `{!interfaces.Binding B}.
Implicit Types (ex : exchange.Exchange B) (bs : list B).

Lemma AppendBinding_range_true bs newBind :
  exchange.AppendBinding_range bs newBind = true
  ↔ ∃ bind, bind ∈ bs ∧ interfaces.Equal bind newBind = true.
Proof.
  induction bs as [|b bs IH]; simpl.
  - split; [done|]. intros (bind & Hin & _). by apply elem_of_nil in Hin.
  - destruct (interfaces.Equal b newBind) eqn:Heq.
    + split; [|done]. intros _. exists b. split; [left|done].
    + rewrite IH. split.
      * intros (bind & Hin & Hb). exists bind. split; [by right|done].
      * intros (bind & Hin & Hb). exists bind. split; [|done].
        apply elem_of_cons in Hin as [-> | Hin]; [congruence|done].
Qed.

Lemma AppendBinding_range_false bs newBind :
  exchange.AppendBinding_range bs newBind = false
  ↔ ∀ bind, bind ∈ bs → interfaces.Equal bind newBind = false.
Proof.
  split.
  - intros Hf bind Hin. destruct (interfaces.Equal bind newBind) eqn:Heq; [|done].
    rewrite <- Hf. symmetry. apply AppendBinding_range_true. eauto.
  - intros Hall. destruct (exchange.AppendBinding_range bs newBind) eqn:Hr; [|done].
    apply AppendBinding_range_true in Hr as (bind & Hin & Heq).
    rewrite (Hall bind Hin) in Heq. done.
Qed.

(** AppendBinding puts a new binding after the ones already there. *)
Lemma AppendBinding_bindings ex newBind :
  exchange.bindings (exchange.AppendBinding ex newBind)
  = if exchange.AppendBinding_range (exchange.bindings ex) newBind
    then exchange.bindings ex
    else exchange.bindings ex ++ [newBind].
Proof.
  unfold exchange.AppendBinding.
  by destruct (exchange.AppendBinding_range (exchange.bindings ex) newBind).
Qed.

Lemma distinct_snoc bs newBind :
  exchange.distinct bs →
  (∀ bind, bind ∈ bs → interfaces.Equal bind newBind = false) →
  exchange.distinct (bs ++ [newBind]).
Proof.
  induction bs as [|b bs IH]; simpl.
  - intros _ _. split; [|done]. intros later Hl. by apply elem_of_nil in Hl.
  - intros [Hb Hd] Hnew. split.
    + intros later Hl. apply elem_of_app in Hl as [Hl | Hl]; [by apply Hb|].
      apply list_elem_of_singleton in Hl as ->. apply Hnew. left.
    + apply IH; [done|]. intros bind Hin. apply Hnew. by right.
Qed.

Lemma distinct_sublist bs bs' :
  sublist bs' bs → exchange.distinct bs → exchange.distinct bs'.
Proof.
  induction 1 as [|b l1 l2 Hs IH|b l1 l2 Hs IH]; simpl; [done| |].
  - intros [Hb Hd]. split; [|by apply IH].
    intros later Hl. apply Hb. by eapply elem_of_sublist.
  - intros [_ Hd]. by apply IH.
Qed.

Lemma RemoveBinding_range_sublist bs rmBind :
  sublist (exchange.RemoveBinding_range bs rmBind) bs.
Proof.
  induction bs as [|b bs IH]; simpl; [constructor|].
  destruct (interfaces.Equal b rmBind).
  - by apply sublist_cons.
  - by apply sublist_skip.
Qed.

Lemma RemoveQueueBindings_range_spec bs queueName newBindings removedBindings :
  exchange.RemoveQueueBindings_range bs queueName newBindings removedBindings
  = (newBindings
       ++ filter (λ b, interfaces.GetQueue b ≠ queueName) bs,
     removedBindings
       ++ filter (λ b, interfaces.GetQueue b = queueName) bs).
Proof.
  revert newBindings removedBindings.
  induction bs as [|b bs IH]; intros newBindings removedBindings; simpl.
  - by rewrite !app_nil_r.
  - destruct (String.eqb_spec (interfaces.GetQueue b) queueName) as [Heq | Hne]; simpl.
    + rewrite IH. rewrite (filter_cons_False _ b) by (intros Hn; by apply Hn).
      rewrite (filter_cons_True (λ b, interfaces.GetQueue b = queueName)) by done.
      by rewrite <- app_assoc.
    + rewrite IH. rewrite (filter_cons_True _ b) by done.
      rewrite (filter_cons_False (λ b, interfaces.GetQueue b = queueName)) by done.
      by rewrite <- app_assoc.
Qed.

Lemma RemoveQueueBindings_bindings ex queueName :
  exchange.bindings (snd (exchange.RemoveQueueBindings ex queueName))
  = filter (λ b, interfaces.GetQueue b ≠ queueName) (exchange.bindings ex).
Proof.
  unfold exchange.RemoveQueueBindings. rewrite RemoveQueueBindings_range_spec. done.
Qed.

Lemma AppendBinding_distinct ex newBind :
  exchange.distinct (exchange.bindings ex) →
  exchange.distinct (exchange.bindings (exchange.AppendBinding ex newBind)).
Proof.
  intros Hd. rewrite AppendBinding_bindings.
  destruct (exchange.AppendBinding_range (exchange.bindings ex) newBind) eqn:Hr; [done|].
  apply distinct_snoc; [done|]. by apply AppendBinding_range_false.
Qed.

Lemma reachable_distinct ex :
  exchange.reachable ex → exchange.distinct (exchange.bindings ex).
Proof.
  induction 1 as [| ex newBind _ IH | ex rmBind _ IH | ex queueName _ IH | ex data _ IH].
  - done.
  - by apply AppendBinding_distinct.
  - eapply distinct_sublist; [|exact IH]. apply RemoveBinding_range_sublist.
  - rewrite RemoveQueueBindings_bindings.
    eapply distinct_sublist; [|exact IH]. apply sublist_filter.
  - unfold exchange.Unmarshal.
    destruct (amqp.ReadShortstr data) as [[name e1] buf].
    destruct (amqp.ReadOctet buf) as [[t e2] buf']. exact IH.
Qed.

(** C8.  Adding a binding that equals, by [Equal], one already in the
    exchange's slice is a no-op: the exchange, and so the slice with its
    length and order, is unchanged.  AppendBinding keeps the slice free of a
    binding that equals a later one, and every exchange built from
    NewExchange by AppendBinding, RemoveBinding, RemoveQueueBindings and
    Unmarshal is free of such a pair. *)
Theorem AppendBinding_equal_noop ex newBind :
  ((∃ bind, bind ∈ exchange.bindings ex ∧ interfaces.Equal bind newBind = true) →
     exchange.AppendBinding ex newBind = ex)
  ∧ (exchange.distinct (exchange.bindings ex) →
     exchange.distinct (exchange.bindings (exchange.AppendBinding ex newBind)))
  ∧ (exchange.reachable ex → exchange.distinct (exchange.bindings ex)).
Proof.
  split; [|split].
  - intros Hex. apply AppendBinding_range_true in Hex.
    unfold exchange.AppendBinding. by rewrite Hex.
  - apply AppendBinding_distinct.
  - apply reachable_distinct.
Qed.

End Bindings.

Lemma binding_Equal_refl (b : binding.t) : binding.Equal b b = true.
Proof. unfold binding.Equal. by rewrite !String.eqb_refl. Qed.

(** Adding the same binding twice is adding it once. *)
Lemma AppendBinding_twice (ex : exchange.Exchange binding.t) (newBind : binding.t) :
  exchange.AppendBinding (exchange.AppendBinding ex newBind) newBind
  = exchange.AppendBinding ex newBind.
Proof.
  unfold exchange.AppendBinding at 1.
  replace (exchange.AppendBinding_range _ newBind) with true; [done|].
  symmetry. apply AppendBinding_range_true.
  unfold exchange.AppendBinding.
  destruct (exchange.AppendBinding_range (exchange.bindings ex) newBind) eqn:Hr.
  - by apply AppendBinding_range_true in Hr.
  - exists newBind. simpl. split; [set_solver|apply binding_Equal_refl].
Qed.

(** Removing the bindings of q1 returns them and leaves the others. *)
Example RemoveQueueBindings_q1 :
  exchange.RemoveQueueBindings sample.fanout_123 "q1"
  = ([sample.bind "logs" "" "q1"],
     exchange.set_bindings sample.fanout_123
       [sample.bind "logs" "" "q2"; sample.bind "logs" "" "q3"]).
Proof. reflexivity. Qed.

Lemma AppendBinding_equal_noop_witness :
  exchange.AppendBinding sample.direct_ab (sample.bind "orders" "a" "q1") = sample.direct_ab
  ∧ exchange.distinct
      (exchange.bindings
         (exchange.AppendBinding sample.direct_ab (sample.bind "orders" "c" "q1")))
  ∧ exchange.distinct (exchange.bindings sample.direct_ab).
Proof.
  destruct (AppendBinding_equal_noop sample.direct_ab (sample.bind "orders" "a" "q1"))
    as (Hnoop & _ & Hreach).
  destruct (AppendBinding_equal_noop sample.direct_ab (sample.bind "orders" "c" "q1"))
    as (_ & Hkeep & _).
  assert (Hr : exchange.reachable sample.direct_ab) by (repeat constructor).
  split; [|split].
  - apply Hnoop. exists (sample.bind "orders" "a" "q1"). split; [left|reflexivity].
  - apply Hkeep, Hreach, Hr.
  - apply Hreach, Hr.
Defined.

(** ** Redeclaring an exchange *)

Section Declare.
Context {B : Type} `{!interfaces.Binding B}.
Variables ClassIdentifier MethodIdentifier : amqp.ExchangeDeclare.t → N.
Implicit Types (ex exB existing : exchange.Exchange B).
Implicit Types (channel : server.Channel B) (method : amqp.ExchangeDeclare.t).

Lemma EqualWithErr_equal ex exB :
  exchange.EqualWithErr ex exB = None
  ↔ exchange.exType ex = exchange.exType exB
    ∧ exchange.durable ex = exchange.durable exB
    ∧ exchange.autoDelete ex = exchange.autoDelete exB
    ∧ exchange.internal ex = exchange.internal exB.
Proof.
  unfold exchange.EqualWithErr, exchange.ExType, exchange.IsDurable,
    exchange.IsAutoDelete, exchange.IsInternal.
  case_bool_decide as Ht; simpl; [|split; [done|by intros [? _]]].
  destruct (exchange.durable ex), (exchange.durable exB),
    (exchange.autoDelete ex), (exchange.autoDelete exB),
    (exchange.internal ex), (exchange.internal exB); simpl;
    (split; [try done | by intros (_ & ? & ? & ?)]).
Qed.

Lemma EqualWithErr_type ex exB :
  exchange.exType ex ≠ exchange.exType exB →
  exchange.EqualWithErr ex exB
  = Some (exchange.errTemplate "type" (exchange.Name ex)
            (fst (exchange.GetExchangeTypeAlias (exchange.exType exB)))
            (fst (exchange.GetExchangeTypeAlias (exchange.exType ex)))).
Proof.
  intros Hne. unfold exchange.EqualWithErr, exchange.ExType.
  by rewrite bool_decide_eq_false_2.
Qed.

Lemma EqualWithErr_durable ex exB :
  exchange.exType ex = exchange.exType exB →
  exchange.durable ex ≠ exchange.durable exB →
  exchange.EqualWithErr ex exB
  = Some (exchange.errTemplate "durable" (exchange.Name ex)
            (fmt.verb_s_bool (exchange.durable exB))
            (fmt.verb_s_bool (exchange.durable ex))).
Proof.
  intros Ht Hne. unfold exchange.EqualWithErr, exchange.ExType, exchange.IsDurable.
  rewrite bool_decide_eq_true_2 by done. simpl.
  by destruct (exchange.durable ex), (exchange.durable exB).
Qed.

Lemma EqualWithErr_autoDelete ex exB :
  exchange.exType ex = exchange.exType exB →
  exchange.durable ex = exchange.durable exB →
  exchange.autoDelete ex ≠ exchange.autoDelete exB →
  exchange.EqualWithErr ex exB
  = Some (exchange.errTemplate "autoDelete" (exchange.Name ex)
            (fmt.verb_s_bool (exchange.autoDelete exB))
            (fmt.verb_s_bool (exchange.autoDelete ex))).
Proof.
  intros Ht Hd Hne.
  unfold exchange.EqualWithErr, exchange.ExType, exchange.IsDurable, exchange.IsAutoDelete.
  rewrite bool_decide_eq_true_2 by done. rewrite Hd, Bool.eqb_reflx. simpl.
  by destruct (exchange.autoDelete ex), (exchange.autoDelete exB).
Qed.

Lemma EqualWithErr_internal ex exB :
  exchange.exType ex = exchange.exType exB →
  exchange.durable ex = exchange.durable exB →
  exchange.autoDelete ex = exchange.autoDelete exB →
  exchange.internal ex ≠ exchange.internal exB →
  exchange.EqualWithErr ex exB
  = Some (exchange.errTemplate "internal" (exchange.Name ex)
            (fmt.verb_s_bool (exchange.internal exB))
            (fmt.verb_s_bool (exchange.internal ex))).
Proof.
  intros Ht Hd Ha Hne.
  unfold exchange.EqualWithErr, exchange.ExType, exchange.IsDurable,
    exchange.IsAutoDelete, exchange.IsInternal.
  rewrite bool_decide_eq_true_2 by done. rewrite Hd, Ha, !Bool.eqb_reflx. simpl.
  by destruct (exchange.internal ex), (exchange.internal exB).
Qed.

(** A declare that is not passive, names a known type and a name that is
    neither empty nor reserved, over an exchange that exists, is decided by
    EqualWithErr alone. *)
Lemma exchangeDeclare_existing channel method exTypeId existing :
  exchange.GetExchangeTypeID (amqp.ExchangeDeclare.Type_ method) = (exTypeId, None) →
  amqp.ExchangeDeclare.Exchange method ≠ ""%string →
  amqp.ExchangeDeclare.Passive method = false →
  String.prefix "amq." (amqp.ExchangeDeclare.Exchange method) = false →
  server.GetExchange (server.vhost channel) (amqp.ExchangeDeclare.Exchange method)
  = Some existing →
  server.exchangeDeclare ClassIdentifier MethodIdentifier channel method
  = match exchange.EqualWithErr existing
            (exchange.New (amqp.ExchangeDeclare.Exchange method) exTypeId
               (amqp.ExchangeDeclare.Durable method)
               (amqp.ExchangeDeclare.AutoDelete method)
               (amqp.ExchangeDeclare.Internal method) false
               (amqp.ExchangeDeclare.Arguments method)) with
    | Some err =>
        (Some (amqp.NewChannelError amqp.PreconditionFailed err
                 (ClassIdentifier method) (MethodIdentifier method)), channel)
    | None => (None, server.SendMethod channel amqp.ExchangeDeclareOk)
    end.
Proof.
  intros Hty Hname Hpassive Hprefix Hex. unfold server.exchangeDeclare.
  rewrite Hty, Hpassive, Hprefix, Hex.
  destruct (String.eqb_spec (amqp.ExchangeDeclare.Exchange method) "") as [He|_]; done.
Qed.

(** C4 (as amended).  A declare over an existing exchange that is not
    passive, has a known type alias and a name that is neither empty nor
    reserved, reaches the comparison of EqualWithErr: with the same kind,
    durable, autoDelete and internal as the existing exchange it succeeds,
    sends ExchangeDeclareOk and leaves the registry as it was; otherwise it
    is rejected with PreconditionFailed, the channel is unchanged, and the
    text names the first differing attribute in the order type, durable,
    autoDelete, internal, with the received and the current value. *)
Theorem exchangeDeclare_redeclare channel method exTypeId existing :
  exchange.GetExchangeTypeID (amqp.ExchangeDeclare.Type_ method) = (exTypeId, None) →
  amqp.ExchangeDeclare.Exchange method ≠ ""%string →
  amqp.ExchangeDeclare.Passive method = false →
  String.prefix "amq." (amqp.ExchangeDeclare.Exchange method) = false →
  server.GetExchange (server.vhost channel) (amqp.ExchangeDeclare.Exchange method)
  = Some existing →
  let result := server.exchangeDeclare ClassIdentifier MethodIdentifier channel method in
  let conflict (arg received current : string) :=
    (Some (amqp.NewChannelError amqp.PreconditionFailed
             (exchange.errTemplate arg (exchange.Name existing) received current)
             (ClassIdentifier method) (MethodIdentifier method)), channel) in
  (exchange.exType existing = exTypeId →
   exchange.durable existing = amqp.ExchangeDeclare.Durable method →
   exchange.autoDelete existing = amqp.ExchangeDeclare.AutoDelete method →
   exchange.internal existing = amqp.ExchangeDeclare.Internal method →
   result = (None, server.SendMethod channel amqp.ExchangeDeclareOk))
  ∧ (exchange.exType existing ≠ exTypeId →
     result = conflict "type"%string (amqp.ExchangeDeclare.Type_ method)
                (fst (exchange.GetExchangeTypeAlias (exchange.exType existing))))
  ∧ (exchange.exType existing = exTypeId →
     exchange.durable existing ≠ amqp.ExchangeDeclare.Durable method →
     result = conflict "durable"%string
                (fmt.verb_s_bool (amqp.ExchangeDeclare.Durable method))
                (fmt.verb_s_bool (exchange.durable existing)))
  ∧ (exchange.exType existing = exTypeId →
     exchange.durable existing = amqp.ExchangeDeclare.Durable method →
     exchange.autoDelete existing ≠ amqp.ExchangeDeclare.AutoDelete method →
     result = conflict "autoDelete"%string
                (fmt.verb_s_bool (amqp.ExchangeDeclare.AutoDelete method))
                (fmt.verb_s_bool (exchange.autoDelete existing)))
  ∧ (exchange.exType existing = exTypeId →
     exchange.durable existing = amqp.ExchangeDeclare.Durable method →
     exchange.autoDelete existing = amqp.ExchangeDeclare.AutoDelete method →
     exchange.internal existing ≠ amqp.ExchangeDeclare.Internal method →
     result = conflict "internal"%string
                (fmt.verb_s_bool (amqp.ExchangeDeclare.Internal method))
                (fmt.verb_s_bool (exchange.internal existing)))
  ∧ server.vhost (snd result) = server.vhost channel.
Proof.
  intros Hty Hname Hpassive Hprefix Hex result conflict. subst result conflict.
  rewrite (exchangeDeclare_existing channel method exTypeId existing) by done.
  repeat split.
  - intros Ht Hd Ha Hi.
    by rewrite (proj2 (EqualWithErr_equal existing _)).
  - intros Hne. rewrite EqualWithErr_type by done. simpl.
    by rewrite (GetExchangeTypeID_alias _ _ Hty).
  - intros Ht Hne. by rewrite EqualWithErr_durable.
  - intros Ht Hd Hne. by rewrite EqualWithErr_autoDelete.
  - intros Ht Hd Ha Hne. by rewrite EqualWithErr_internal.
  - by destruct (exchange.EqualWithErr existing _).
Qed.

End Declare.

Lemma exchangeDeclare_redeclare_witness :
  server.exchangeDeclare sample.ids sample.ids sample.channel_orders
    (sample.declare "orders" "direct" false true)
  = (None, server.SendMethod sample.channel_orders amqp.ExchangeDeclareOk)
  ∧ server.exchangeDeclare sample.ids sample.ids sample.channel_orders
      (sample.declare "orders" "topic" false true)
    = (Some (amqp.NewChannelError amqp.PreconditionFailed
               "inequivalent arg 'type' for exchange 'orders': received 'topic' but current is 'direct'"
               0 0), sample.channel_orders)
  ∧ server.exchangeDeclare sample.ids sample.ids sample.channel_orders
      (sample.declare "orders" "direct" false false)
    = (Some (amqp.NewChannelError amqp.PreconditionFailed
               "inequivalent arg 'durable' for exchange 'orders': received '%!s(bool=false)' but current is '%!s(bool=true)'"
               0 0), sample.channel_orders).
Proof.
  split; [|split].
  - apply (exchangeDeclare_redeclare sample.ids sample.ids sample.channel_orders
             (sample.declare "orders" "direct" false true)
             exchange.ExTypeDirect sample.direct_ab);
      solve [reflexivity | discriminate].
  - apply (proj1 (proj2 (exchangeDeclare_redeclare sample.ids sample.ids
             sample.channel_orders (sample.declare "orders" "topic" false true)
             exchange.ExTypeTopic sample.direct_ab
             eq_refl ltac:(discriminate) eq_refl eq_refl eq_refl))).
    discriminate.
  - apply (proj1 (proj2 (proj2 (exchangeDeclare_redeclare sample.ids sample.ids
             sample.channel_orders (sample.declare "orders" "direct" false false)
             exchange.ExTypeDirect sample.direct_ab
             eq_refl ltac:(discriminate) eq_refl eq_refl eq_refl))));
      solve [reflexivity | discriminate].
Defined.

(** C4 as stated fails for requests that do not reach the comparison.  The
    virtual host holds amq.direct (direct, durable, not autoDelete, not
    internal): a declare of it with exactly these attributes is refused with
    AccessRefused, because of the reserved prefix.  The virtual host holds
    orders (direct): a passive declare of orders with type topic, which
    differs in kind, is answered with ExchangeDeclareOk and no error. *)
Lemma exchangeDeclare_redeclare_counterexample :
  server.GetExchange (server.vhost sample.channel_amq) "amq.direct"
  = Some sample.amq_direct
  ∧ exchange.EqualWithErr sample.amq_direct
      (exchange.New "amq.direct" exchange.ExTypeDirect true false false false None)
    = None
  ∧ server.exchangeDeclare sample.ids sample.ids sample.channel_amq
      (sample.declare "amq.direct" "direct" false true)
    = (Some (amqp.NewChannelError amqp.AccessRefused
               "exchange name 'amq.direct' contains reserved prefix 'amq.*'" 0 0),
       sample.channel_amq)
  ∧ server.GetExchange (server.vhost sample.channel_orders) "orders"
    = Some sample.direct_ab
  ∧ exchange.exType sample.direct_ab = exchange.ExTypeDirect
  ∧ exchange.GetExchangeTypeID "topic" = (exchange.ExTypeTopic, None)
  ∧ server.exchangeDeclare sample.ids sample.ids sample.channel_orders
      (sample.declare "orders" "topic" true true)
    = (None, server.SendMethod sample.channel_orders amqp.ExchangeDeclareOk).
Proof. repeat split; reflexivity. Qed.

(** ** Reserved exchange names *)

Section ReservedName.
Context {B : Type} `{!interfaces.Binding B}.
Variables ClassIdentifier MethodIdentifier : amqp.ExchangeDeclare.t → N.
Implicit Types (channel : server.Channel B) (method : amqp.ExchangeDeclare.t).

Lemma prefix_amq_not_empty (name : string) :
  String.prefix "amq." name = true → String.eqb name "" = false.
Proof. by destruct name. Qed.

(** C5 (as amended).  A declare whose exchange name begins with [amq.] and
    which is not passive is rejected and leaves the channel and its registry
    as they were: with AccessRefused and the reserved-prefix text when the
    type alias is known, and with NotImplemented, from the type check that
    comes first, when it is not.  A passive declare with a known type alias
    does not meet the reserved-prefix check: it returns without an answer
    when NoWait is set, is answered with ExchangeDeclareOk when the exchange
    exists and is rejected with NotFound when it does not; the registry is as
    it was in each case. *)
Theorem exchangeDeclare_reserved_prefix channel method :
  String.prefix "amq." (amqp.ExchangeDeclare.Exchange method) = true →
  let result := server.exchangeDeclare ClassIdentifier MethodIdentifier channel method in
  let rejected (code : amqp.ReplyCode) (text : string) :=
    (Some (amqp.NewChannelError code text
             (ClassIdentifier method) (MethodIdentifier method)), channel) in
  (∀ exTypeId err,
     exchange.GetExchangeTypeID (amqp.ExchangeDeclare.Type_ method)
     = (exTypeId, Some err) →
     result = rejected amqp.NotImplemented err)
  ∧ (∀ exTypeId,
       exchange.GetExchangeTypeID (amqp.ExchangeDeclare.Type_ method)
       = (exTypeId, None) →
       (amqp.ExchangeDeclare.Passive method = false →
        result = rejected amqp.AccessRefused
                   ("exchange name '" ++ amqp.ExchangeDeclare.Exchange method
                    ++ "' contains reserved prefix 'amq.*'")%string)
       ∧ (amqp.ExchangeDeclare.Passive method = true →
          result
          = if amqp.ExchangeDeclare.NoWait method then (None, channel)
            else match server.GetExchange (server.vhost channel)
                         (amqp.ExchangeDeclare.Exchange method) with
                 | Some _ => (None, server.SendMethod channel amqp.ExchangeDeclareOk)
                 | None =>
                     rejected amqp.NotFound
                       ("exchange '" ++ amqp.ExchangeDeclare.Exchange method
                        ++ "' not found")%string
                 end))
  ∧ server.vhost (snd result) = server.vhost channel.
Proof.
  intros Hprefix result rejected. subst result rejected.
  unfold server.exchangeDeclare.
  rewrite (prefix_amq_not_empty _ Hprefix), Hprefix.
  destruct (exchange.GetExchangeTypeID (amqp.ExchangeDeclare.Type_ method))
    as [exTypeId [err|]].
  - split; [by intros ? ? [= <- <-]|]. split; [by intros ? [=]|done].
  - split; [by intros ? ? [=]|]. split.
    + intros ? [= <-]. split; by intros ->.
    + destruct (amqp.ExchangeDeclare.Passive method); [|done].
      destruct (amqp.ExchangeDeclare.NoWait method); [done|].
      by destruct (server.GetExchange _ _).
Qed.

End ReservedName.

Lemma exchangeDeclare_reserved_prefix_witness :
  server.exchangeDeclare sample.ids sample.ids sample.channel_orders
    (sample.declare "amq.orders" "direct" false true)
  = (Some (amqp.NewChannelError amqp.AccessRefused
             "exchange name 'amq.orders' contains reserved prefix 'amq.*'" 0 0),
     sample.channel_orders).
Proof.
  apply (proj1 (proj2 (exchangeDeclare_reserved_prefix sample.ids sample.ids
                         sample.channel_orders
                         (sample.declare "amq.orders" "direct" false true)
                         eq_refl)) exchange.ExTypeDirect);
    reflexivity.
Defined.

(** C5 as stated fails.  The name amq.direct begins with the reserved
    prefix; a passive declare of it, on a virtual host that holds such an
    exchange, is answered with ExchangeDeclareOk and no error; and a declare
    of it with an unknown type alias is rejected with the error of the type
    check, not with the reserved-name error. *)
Lemma exchangeDeclare_reserved_prefix_counterexample :
  String.prefix "amq." "amq.direct" = true
  ∧ server.exchangeDeclare sample.ids sample.ids sample.channel_amq
      (sample.declare "amq.direct" "direct" true true)
    = (None, server.SendMethod sample.channel_amq amqp.ExchangeDeclareOk)
  ∧ server.exchangeDeclare sample.ids sample.ids sample.channel_amq
      (sample.declare "amq.direct" "bogus" false true)
    = (Some (amqp.NewChannelError amqp.NotImplemented
               "undefined exchange alias 'bogus'" 0 0), sample.channel_amq).
Proof. repeat split; reflexivity. Qed.

(** ** The storage wrapper *)

Lemma Get_found (storage : storage.BuntDB) (key val : string) :
  buntdb.closed (storage.db storage) = false →
  buntdb.committed (storage.db storage) !! key = Some val →
  storage.Get storage key = (Some (list_byte_of_string val), None).
Proof.
  intros Hopen Hval. unfold storage.Get, buntdb.View, buntdb.Get.
  by rewrite Hopen, Hval.
Qed.

Lemma Get_not_found (storage : storage.BuntDB) (key : string) :
  buntdb.committed (storage.db storage) !! key = None →
  storage.Get storage key = (None, None).
Proof.
  intros Hval. unfold storage.Get, buntdb.View, buntdb.Get.
  destruct (buntdb.closed (storage.db storage)); [done|]. by rewrite Hval.
Qed.

(** C6, evaluated on the code.  Get on a store in which k2 was never written
    returns (nil, nil): no value and no error; and the error result of Get is
    nil for every store and key, also when the key is not found and when the
    database is closed. *)
Theorem Get_error_always_nil :
  storage.Get sample.store_k1 "k2" = (None, None)
  ∧ (∀ (storage : storage.BuntDB) (key : string), snd (storage.Get storage key) = None).
Proof.
  split; [reflexivity|].
  intros storage key. unfold storage.Get.
  by destruct (buntdb.View _ _ _).
Qed.

Lemma ProcessBatch_op_lookup (tx : buntdb.Tx) (op : interfaces.Operation.t) (key : string) :
  storage.ProcessBatch_op tx op !! key
  = if decide (interfaces.Operation.Key op = key)
    then match interfaces.Operation.Op op with
         | interfaces.OpSet => Some (string_of_list_byte (interfaces.Operation.Value op))
         | interfaces.OpDel => None
         end
    else tx !! key.
Proof.
  unfold storage.ProcessBatch_op, buntdb.Set_, buntdb.Delete.
  destruct op as [[] k v]; simpl.
  - destruct (tx !! k); simpl; apply lookup_insert.
  - destruct (tx !! k) eqn:Hk; simpl.
    + apply lookup_delete.
    + case_decide; by subst.
Qed.

Lemma ProcessBatch_range_lookup (batch : list interfaces.Operation.t)
    (tx : buntdb.Tx) (key : string) :
  storage.ProcessBatch_range batch tx !! key = storage.batch_effect batch key (tx !! key).
Proof.
  revert tx. induction batch as [|op batch IH]; intros tx; simpl; [done|].
  by rewrite IH, ProcessBatch_op_lookup.
Qed.

(** What the running process reads after ProcessBatch, over the
    transaction above.  The loop contributes the first case: its closure
    never returns an error, so a commit that succeeds holds the whole batch,
    and every key reads back what the batch leaves under it.  The second
    case is the rollback of [buntdb.Update] itself; what the data file holds
    after it is not covered. *)
Lemma ProcessBatch_in_process (storage : storage.BuntDB) (persist : bool)
    (batch : list interfaces.Operation.t) :
  let result := storage.ProcessBatch storage persist batch in
  (buntdb.closed (storage.db storage) = false ∧ persist = true
   ∧ snd result = None
   ∧ buntdb.closed (storage.db (fst result)) = false
   ∧ (∀ key, buntdb.committed (storage.db (fst result)) !! key
             = storage.batch_effect batch key
                 (buntdb.committed (storage.db storage) !! key))
   ∧ (∀ key, storage.Get (fst result) key
             = (list_byte_of_string
                  <$> storage.batch_effect batch key
                        (buntdb.committed (storage.db storage) !! key), None)))
  ∨ ((buntdb.closed (storage.db storage) = true ∨ persist = false)
     ∧ (∃ err, snd result = Some err)
     ∧ fst result = storage).
Proof.
  destruct storage as [[closed committed]]. simpl.
  unfold storage.ProcessBatch, buntdb.Update; simpl.
  destruct closed; simpl; [right; eauto|].
  destruct persist; simpl; [left|right; eauto].
  repeat split.
  - intros key. apply ProcessBatch_range_lookup.
  - intros key. rewrite <- ProcessBatch_range_lookup.
    destruct (storage.ProcessBatch_range batch committed !! key) as [val|] eqn:Hval.
    + by apply Get_found.
    + by apply Get_not_found.
Qed.

(** Three sets and one delete: the running process reads all four changes
    after the commit, and none after a commit that fails. *)
Example ProcessBatch_batch4 :
  let committed := storage.ProcessBatch sample.store_k1 true sample.batch4 in
  let failed := storage.ProcessBatch sample.store_k1 false sample.batch4 in
  snd committed = None
  ∧ storage.Get (fst committed) "a" = (Some (list_byte_of_string "3"), None)
  ∧ storage.Get (fst committed) "b" = (Some (list_byte_of_string "2"), None)
  ∧ storage.Get (fst committed) "k1" = (None, None)
  ∧ snd failed = Some buntdb.ErrPersist
  ∧ fst failed = sample.store_k1.
Proof. repeat split; vm_compute; reflexivity. Qed.

(** ** The storage record of an exchange *)

Lemma octet_of_nat_small (n : nat) :
  n ≤ 255 → N.to_nat (Byte.to_N (amqp.octet_of_nat n)) = n.
Proof.
  intros Hn. unfold amqp.octet_of_nat.
  assert (Hmod : (N.of_nat n mod 256 = N.of_nat n)%N) by (apply N.mod_small; lia).
  rewrite Hmod.
  pose proof (Byte.to_of_N_option_map (N.of_nat n)) as Hb.
  destruct (Byte.of_N (N.of_nat n)) as [b|]; simpl in *.
  - destruct (N.leb_spec (N.of_nat n) 255); [|done].
    injection Hb as ->. lia.
  - destruct (N.leb_spec (N.of_nat n) 255); [done|lia].
Qed.

Lemma length_list_byte_of_string (s : string) :
  length (list_byte_of_string s) = String.length s.
Proof.
  unfold list_byte_of_string. rewrite length_map.
  induction s as [|c s IH]; simpl; [done|]. by rewrite IH.
Qed.

Lemma ReadShortstr_WriteShortstr (s : string) (rest : list byte) :
  String.length s ≤ 255 →
  amqp.ReadShortstr (amqp.WriteShortstr [] s ++ rest) = (s, None, rest).
Proof.
  intros Hlen. unfold amqp.WriteShortstr, amqp.WriteOctet, amqp.ReadShortstr.
  rewrite app_nil_l. cbn [app amqp.ReadOctet].
  rewrite octet_of_nat_small by done.
  rewrite decide_True by (rewrite length_app, length_list_byte_of_string; lia).
  rewrite <- (length_list_byte_of_string s).
  by rewrite take_app_length, drop_app_length, string_of_list_byte_of_string.
Qed.

Section Record.
Context {B : Type} `{!interfaces.Binding B}.
Implicit Types (ex original : exchange.Exchange B).

Lemma Unmarshal_durable ex (data : list byte) :
  exchange.durable (exchange.Unmarshal ex data) = true.
Proof.
  unfold exchange.Unmarshal.
  destruct (amqp.ReadShortstr data) as [[name e1] buf].
  by destruct (amqp.ReadOctet buf) as [[t e2] buf'].
Qed.

Lemma Unmarshal_Marshal_fields ex original (protoVersion : string) :
  String.length (exchange.Name original) ≤ 255 →
  exchange.Unmarshal ex (exchange.Marshal original protoVersion)
  = exchange.mkExchange (exchange.Name original) (exchange.exType original) true
      (exchange.autoDelete ex) (exchange.internal ex) (exchange.system ex)
      (exchange.arguments ex) (exchange.bindings ex).
Proof.
  intros Hlen. unfold exchange.Unmarshal, exchange.Marshal, amqp.WriteOctet.
  by rewrite ReadShortstr_WriteShortstr.
Qed.

(** C7 (as amended).  For every exchange whose name has at most 255 octets,
    decoding its record gives back its name and its kind; and a decoded
    exchange is durable whatever data it was decoded from, so whatever the
    durable flag of the exchange that was encoded. *)
Theorem Unmarshal_Marshal ex original (protoVersion : string) :
  String.length (exchange.Name original) ≤ 255 →
  let decoded := exchange.Unmarshal ex (exchange.Marshal original protoVersion) in
  exchange.Name decoded = exchange.Name original
  ∧ exchange.exType decoded = exchange.exType original
  ∧ exchange.durable decoded = true.
Proof.
  intros Hlen decoded. subst decoded.
  by rewrite Unmarshal_Marshal_fields.
Qed.

End Record.

Lemma Unmarshal_Marshal_witness :
  let decoded := exchange.Unmarshal sample.blank (exchange.Marshal sample.volatile "0-9-1") in
  exchange.Name decoded = "logs"%string
  ∧ exchange.exType decoded = exchange.ExTypeFanout
  ∧ exchange.durable decoded = true.
Proof.
  apply (Unmarshal_Marshal sample.blank sample.volatile "0-9-1").
  simpl. lia.
Defined.

(** C7 as stated fails for a name that does not fit a short string: the
    sample exchange has a name of 256 octets and kind direct; its record
    decodes to the empty name and to another kind. *)
Lemma Unmarshal_Marshal_counterexample :
  let decoded :=
    exchange.Unmarshal sample.long_named (exchange.Marshal sample.long_named "0-9-1") in
  String.length (exchange.Name sample.long_named) = 256
  ∧ exchange.Name decoded = ""%string
  ∧ exchange.Name decoded ≠ exchange.Name sample.long_named
  ∧ exchange.exType sample.long_named = exchange.ExTypeDirect
  ∧ exchange.exType decoded ≠ exchange.exType sample.long_named.
Proof.
  vm_compute. repeat split; discriminate.
Qed.

(** ** Routing while the binding slice is written *)

Section Alone.
Context {B : Type} `{!interfaces.Binding B}.
Implicit Types (m : sched.Mem B) (bs rest : list B) (message : amqp.Message.t).

(** No step of GetMatchedQueues depends on the mutex or changes the
    memory: it moves the same way whether [bindLock] is held or not. *)
Lemma GetMatchedQueues_step_ignores_bindLock exType message pc array len :
  sched.GetMatchedQueues_step exType message pc (sched.mkMem true array len)
  = (λ '(pc', _), (pc', sched.mkMem true array len))
      <$> sched.GetMatchedQueues_step exType message pc (sched.mkMem false array len).
Proof.
  destruct pc as [|n i matchedQueues|matchedQueues]; simpl; [| |done].
  - by case_decide.
  - case_decide; [|done]. destruct (array !! i) as [bind|]; [|done]. simpl.
    repeat case_decide; try done.
    by destruct (interfaces.MatchDirect _ _ _).
Qed.

Lemma drop_cons_inv {A : Type} (l : list A) (i : nat) (x : A) (rest : list A) :
  drop i l = x :: rest → l !! i = Some x ∧ drop (S i) l = rest ∧ i < length l.
Proof.
  intros Hd.
  assert (Hx : l !! i = Some x).
  { rewrite <- (Nat.add_0_r i), <- lookup_drop, Hd. done. }
  split; [done|]. split.
  - rewrite (drop_S l x i Hx) in Hd. by injection Hd.
  - by eapply lookup_lt_Some.
Qed.

Lemma run_Router rmBind exType message k pcR pc m :
  sched.run rmBind exType message (replicate (S k) sched.Router) (sched.mkState pcR pc m)
  = match sched.GetMatchedQueues_step exType message pc m with
    | Some (pc', m') =>
        sched.run rmBind exType message (replicate k sched.Router) (sched.mkState pcR pc' m')
    | None => None
    end.
Proof.
  simpl. unfold sched.step. simpl.
  by destruct (sched.GetMatchedQueues_step exType message pc m) as [[pc' m']|].
Qed.

Lemma router_loop_alone rmBind exType message pcR m rest :
  sched.len m ≤ length (sched.array m) →
  ∀ i matchedQueues,
    drop i (sched.slice m) = rest →
    ∃ k, sched.run rmBind exType message (replicate k sched.Router)
           (sched.mkState pcR (sched.GQ_range (sched.len m) i matchedQueues) m)
         = Some (sched.mkState pcR
                   (sched.GQ_return (sched.loop_of exType rest message matchedQueues)) m).
Proof.
  intros Hlen. unfold sched.slice.
  induction rest as [|bind rest IH]; intros i matchedQueues Hdrop.
  - exists 1. rewrite run_Router; simpl.
    apply drop_nil_inv in Hdrop.
    rewrite length_take, Nat.min_l in Hdrop by done.
    rewrite decide_False by lia.
    unfold sched.loop_of. by repeat case_decide.
  - apply drop_cons_inv in Hdrop as (Hi & Hrest & Hlt).
    rewrite length_take, Nat.min_l in Hlt by done.
    apply lookup_take_Some in Hi as [Hi _].
    unfold sched.loop_of.
    destruct (decide (exType = exchange.ExTypeDirect)) as [Hd|Hd].
    + destruct (interfaces.MatchDirect bind (amqp.Message.Exchange message)
                  (amqp.Message.RoutingKey message)) eqn:Hmatch.
      * exists 1. rewrite run_Router; simpl.
        rewrite decide_True by done. rewrite Hi. rewrite decide_True by done.
        by rewrite Hmatch.
      * destruct (IH (S i) matchedQueues Hrest) as [k Hk].
        exists (S k). rewrite run_Router; simpl.
        rewrite decide_True by done. rewrite Hi. rewrite decide_True by done.
        rewrite Hmatch. rewrite Hk. unfold sched.loop_of. by rewrite decide_True.
    + destruct (decide (exType = exchange.ExTypeFanout)) as [Hf|Hf].
      * destruct (IH (S i)
                    (if interfaces.MatchFanout bind (amqp.Message.Exchange message)
                     then <[interfaces.GetQueue bind := true]> matchedQueues
                     else matchedQueues) Hrest) as [k Hk].
        exists (S k). rewrite run_Router; simpl.
        rewrite decide_True by done. rewrite Hi. rewrite decide_False by done.
        rewrite decide_True by done. rewrite Hk.
        unfold sched.loop_of. rewrite decide_False by done. by rewrite decide_True.
      * destruct (IH (S i)
                    (if interfaces.MatchTopic bind (amqp.Message.Exchange message)
                                                   (amqp.Message.RoutingKey message)
                     then <[interfaces.GetQueue bind := true]> matchedQueues
                     else matchedQueues) Hrest) as [k Hk].
        exists (S k). rewrite run_Router; simpl.
        rewrite decide_True by done. rewrite Hi. rewrite !decide_False by done.
        rewrite Hk. unfold sched.loop_of. by rewrite !decide_False.
Qed.

(** Run without another goroutine in between, the steps of
    GetMatchedQueues compute the function [exchange.GetMatchedQueues]. *)
Lemma router_alone rmBind message pcR (ex : exchange.Exchange B) m :
  sched.len m ≤ length (sched.array m) →
  sched.slice m = exchange.bindings ex →
  ∃ k, sched.run rmBind (exchange.exType ex) message (replicate k sched.Router)
         (sched.mkState pcR sched.GQ_enter m)
       = Some (sched.mkState pcR
                 (sched.GQ_return (exchange.GetMatchedQueues ex message)) m).
Proof.
  intros Hlen Hslice. unfold exchange.GetMatchedQueues.
  destruct (decide (exchange.exType ex = exchange.ExTypeDirect
                    ∨ exchange.exType ex = exchange.ExTypeFanout
                    ∨ exchange.exType ex = exchange.ExTypeTopic)) as [Hty|Hty].
  - destruct (router_loop_alone rmBind (exchange.exType ex) message pcR m
                (exchange.bindings ex) Hlen 0 ∅) as [k Hk].
    { by rewrite drop_0. }
    exists (S k). rewrite run_Router; simpl.
    rewrite decide_True by done. rewrite Hk. unfold sched.loop_of.
    repeat case_decide; try done. tauto.
  - exists 1. rewrite run_Router; simpl.
    rewrite decide_False by done.
    repeat case_decide; try done; tauto.
Qed.

End Alone.

Section RemoverAlone.
Context {B : Type} `{!interfaces.Binding B}.
Implicit Types (m : sched.Mem B) (bs rest : list B) (message : amqp.Message.t).

Lemma run_Remover rmBind exType message k pc pcQ m :
  sched.run rmBind exType message (replicate (S k) sched.Remover) (sched.mkState pc pcQ m)
  = match sched.RemoveBinding_step rmBind pc m with
    | Some (pc', m') =>
        sched.run rmBind exType message (replicate k sched.Remover) (sched.mkState pc' pcQ m')
    | None => None
    end.
Proof.
  simpl. unfold sched.step. simpl.
  by destruct (sched.RemoveBinding_step rmBind pc m) as [[pc' m']|].
Qed.

Lemma remover_loop_alone rmBind exType message pcQ m rest :
  sched.len m ≤ length (sched.array m) →
  ∀ i,
    drop i (sched.slice m) = rest →
    ∃ k m',
      sched.run rmBind exType message (replicate k sched.Remover)
        (sched.mkState (sched.RB_range (sched.len m) i) pcQ m)
      = Some (sched.mkState sched.RB_Unlock pcQ m')
      ∧ sched.slice m' = take i (sched.slice m) ++ exchange.RemoveBinding_range rest rmBind
      ∧ sched.bindLock m' = sched.bindLock m.
Proof.
  intros Hlen. unfold sched.slice.
  induction rest as [|bind rest IH]; intros i Hdrop.
  - exists 1, m. rewrite run_Remover. simpl.
    apply drop_nil_inv in Hdrop.
    rewrite decide_False by (rewrite length_take in Hdrop; lia).
    split; [done|]. split; [|done].
    rewrite app_nil_r. symmetry. by apply take_ge.
  - apply drop_cons_inv in Hdrop as (Hi & Hrest & Hlt).
    rewrite length_take, Nat.min_l in Hlt by done.
    pose proof Hi as Hi'. apply lookup_take_Some in Hi' as [Hi' _].
    simpl. destruct (interfaces.Equal bind rmBind) eqn:Heq.
    + eexists 1, _. rewrite run_Remover. simpl.
      rewrite decide_True by done. rewrite Hi', Heq.
      split; [done|]. simpl. split; [|done].
      rewrite Hrest.
      rewrite app_assoc, take_app_length'.
      * by rewrite take_take, Nat.min_l by lia.
      * rewrite length_app, length_take, <- Hrest, length_drop, length_take. lia.
    + destruct (IH (S i) Hrest) as (k & m' & Hrun & Hslice & Hlock).
      exists (S k), m'. rewrite run_Remover. simpl.
      rewrite decide_True by done. rewrite Hi', Heq.
      split; [done|]. split; [|done].
      rewrite Hslice, (take_S_r _ _ _ Hi), <- app_assoc. done.
Qed.

(** Run without another goroutine in between, on a free mutex, the steps of
    RemoveBinding leave the slice that [exchange.RemoveBinding] computes, and
    the mutex free. *)
Lemma remover_alone rmBind exType message pcQ (ex : exchange.Exchange B) m :
  sched.bindLock m = false →
  sched.len m ≤ length (sched.array m) →
  sched.slice m = exchange.bindings ex →
  ∃ k m',
    sched.run rmBind exType message (replicate k sched.Remover)
      (sched.mkState sched.RB_Lock pcQ m)
    = Some (sched.mkState sched.RB_return pcQ m')
    ∧ sched.slice m' = exchange.bindings (exchange.RemoveBinding ex rmBind)
    ∧ sched.bindLock m' = false.
Proof.
  intros Hfree Hlen Hslice.
  destruct (remover_loop_alone rmBind exType message pcQ
              (sched.mkMem true (sched.array m) (sched.len m))
              (sched.slice m) Hlen 0) as (k & m' & Hrun & Hs & Hl).
  { by rewrite drop_0. }
  exists (S (S (k + 1))), (sched.mkMem false (sched.array m') (sched.len m')).
  rewrite run_Remover. cbn [sched.RemoveBinding_step]. rewrite Hfree.
  rewrite run_Remover. cbn [sched.RemoveBinding_step sched.len].
  rewrite replicate_add.
  assert (Happ : ∀ s1 s2 st st',
            sched.run rmBind exType message s1 st = Some st' →
            sched.run rmBind exType message (s1 ++ s2) st
            = sched.run rmBind exType message s2 st').
  { induction s1 as [|g s1 IHs]; intros s2 st st'; simpl; [by intros [= ->]|].
    destruct (sched.step rmBind exType message g st); [apply IHs|done]. }
  rewrite (Happ _ _ _ _ Hrun). simpl. unfold sched.step. simpl.
  split; [done|]. split; [|done].
  unfold sched.slice in *. simpl in *. by rewrite Hs, Hslice.
Qed.

End RemoverAlone.

(** C2, evaluated on the code.  GetMatchedQueues does not take [bindLock].
    On the sample fanout exchange with bindings to q1, q2, q3, a routing
    query runs together with RemoveBinding of the binding to q1: the query
    has evaluated its range and read cell 0 when RemoveBinding locks the
    mutex and shifts the cells; the query goes on reading while the mutex is
    held, and returns {q1, q3}.  That is neither what the exchange routes to
    before the removal, {q1, q2, q3}, nor after it, {q2, q3}: the query has
    seen a binding slice that was partly updated. *)
Theorem GetMatchedQueues_reads_during_RemoveBinding :
  let rmBind := sample.bind "logs" "" "q1" in
  let message := sample.msg "logs" "k" in
  let before := sample.fanout_123 in
  let after := exchange.RemoveBinding before rmBind in
  let run := sched.run rmBind exchange.ExTypeFanout message in
  ∃ (held final : sched.State binding.t) (matchedQueues : gmap string bool),
    run (take 5 sample.racy_schedule) (sched.start before) = Some held
    ∧ sched.bindLock (sched.mem held) = true
    ∧ sched.remover held = sched.RB_Unlock
    ∧ run (drop 5 sample.racy_schedule) held = Some final
    ∧ drop 5 sample.racy_schedule
      = [sched.Router; sched.Router; sched.Router; sched.Remover]
    ∧ sched.remover final = sched.RB_return
    ∧ sched.router final = sched.GQ_return matchedQueues
    ∧ sched.bindLock (sched.mem final) = false
    ∧ sched.slice (sched.mem final) = exchange.bindings after
    ∧ matchedQueues = {[ "q1"%string := true; "q3"%string := true ]}
    ∧ exchange.GetMatchedQueues before message
      = {[ "q1"%string := true; "q2"%string := true; "q3"%string := true ]}
    ∧ exchange.GetMatchedQueues after message
      = {[ "q2"%string := true; "q3"%string := true ]}
    ∧ matchedQueues ≠ exchange.GetMatchedQueues before message
    ∧ matchedQueues ≠ exchange.GetMatchedQueues after message.
Proof.
  eexists _, _, _.
  split; [vm_compute; reflexivity|].
  split; [reflexivity|]. split; [reflexivity|].
  split; [vm_compute; reflexivity|].
  split; [reflexivity|]. split; [reflexivity|]. split; [reflexivity|].
  split; [reflexivity|]. split; [reflexivity|].
  split; [vm_compute; reflexivity|].
  split; [vm_compute; reflexivity|].
  split; [vm_compute; reflexivity|].
  split.
  - intros Heq. apply (f_equal (λ mq : gmap string bool, mq !! "q2"%string)) in Heq.
    vm_compute in Heq. discriminate Heq.
  - intros Heq. apply (f_equal (λ mq : gmap string bool, mq !! "q1"%string)) in Heq.
    vm_compute in Heq. discriminate Heq.
Qed.

(** * Further properties of the exchange *)

Section BindingSet.
Context {B : Type} `{!interfaces.Binding B}.
Implicit Types (ex : exchange.Exchange B) (bs older newer : list B).

Lemma set_bindings_same ex : exchange.set_bindings ex (exchange.bindings ex) = ex.
Proof. by destruct ex. Qed.

Lemma RemoveBinding_range_first older bind newer rmBind :
  (∀ b, b ∈ older → interfaces.Equal b rmBind = false) →
  interfaces.Equal bind rmBind = true →
  exchange.RemoveBinding_range (older ++ bind :: newer) rmBind = older ++ newer.
Proof.
  intros Holder Hbind. induction older as [|b older IH]; simpl.
  - by rewrite Hbind.
  - rewrite (Holder b) by left. f_equal. apply IH. intros b' Hb'. apply Holder. by right.
Qed.

Lemma RemoveBinding_range_none bs rmBind :
  (∀ b, b ∈ bs → interfaces.Equal b rmBind = false) →
  exchange.RemoveBinding_range bs rmBind = bs.
Proof.
  intros Hbs. induction bs as [|b bs IH]; simpl; [done|].
  rewrite (Hbs b) by left. f_equal. apply IH. intros b' Hb'. apply Hbs. by right.
Qed.

(** X1.  RemoveBinding removes the first binding of the slice that equals
    [rmBind], and only that one: the bindings before it and after it stay,
    in their order, and the other fields of the exchange stay; when no
    binding equals [rmBind] the exchange is returned as it is. *)
Theorem RemoveBinding_removes_first ex rmBind :
  (∀ older bind newer,
     exchange.bindings ex = older ++ bind :: newer →
     (∀ b, b ∈ older → interfaces.Equal b rmBind = false) →
     interfaces.Equal bind rmBind = true →
     exchange.RemoveBinding ex rmBind = exchange.set_bindings ex (older ++ newer))
  ∧ ((∀ b, b ∈ exchange.bindings ex → interfaces.Equal b rmBind = false) →
     exchange.RemoveBinding ex rmBind = ex).
Proof.
  split.
  - intros older bind newer Hbs Holder Hbind. unfold exchange.RemoveBinding.
    by rewrite Hbs, RemoveBinding_range_first.
  - intros Hnone. unfold exchange.RemoveBinding.
    rewrite RemoveBinding_range_none by done. apply set_bindings_same.
Qed.

(** X2.  A binding that equals itself and that no binding of the exchange
    equals is appended after the bindings already there, and removing it
    again gives back the exchange as it was. *)
Theorem AppendBinding_then_RemoveBinding ex newBind :
  (∀ b, b ∈ exchange.bindings ex → interfaces.Equal b newBind = false) →
  interfaces.Equal newBind newBind = true →
  exchange.AppendBinding ex newBind
  = exchange.set_bindings ex (exchange.bindings ex ++ [newBind])
  ∧ exchange.RemoveBinding (exchange.AppendBinding ex newBind) newBind = ex.
Proof.
  intros Hfresh Hrefl.
  assert (Happ : exchange.AppendBinding ex newBind
                 = exchange.set_bindings ex (exchange.bindings ex ++ [newBind])).
  { unfold exchange.AppendBinding.
    by rewrite (proj2 (AppendBinding_range_false _ _) Hfresh). }
  split; [done|]. rewrite Happ. unfold exchange.RemoveBinding. simpl.
  rewrite (RemoveBinding_range_first (exchange.bindings ex) newBind []) by done.
  rewrite app_nil_r. by destruct ex.
Qed.

Lemma filter_queue_length bs (queueName : string) :
  length (filter (λ b, interfaces.GetQueue b = queueName) bs)
  + length (filter (λ b, interfaces.GetQueue b ≠ queueName) bs)
  = length bs.
Proof.
  induction bs as [|b bs IH]; [done|].
  destruct (decide (interfaces.GetQueue b = queueName)) as [Hq|Hq].
  - rewrite (filter_cons_True (λ b, interfaces.GetQueue b = queueName)) by done.
    rewrite (filter_cons_False (λ b, interfaces.GetQueue b ≠ queueName))
      by (intros Hn; by apply Hn).
    simpl. lia.
  - rewrite (filter_cons_False (λ b, interfaces.GetQueue b = queueName)) by done.
    rewrite (filter_cons_True (λ b, interfaces.GetQueue b ≠ queueName)) by done.
    simpl. lia.
Qed.

(** X3.  RemoveQueueBindings splits the slice by queue name: it returns the
    bindings whose queue is [queueName] and leaves the others in the
    exchange, both in the order they had; no binding is lost or added, and
    the other fields of the exchange stay. *)
Theorem RemoveQueueBindings_partition ex (queueName : string) :
  exchange.RemoveQueueBindings ex queueName
  = (filter (λ b, interfaces.GetQueue b = queueName) (exchange.bindings ex),
     exchange.set_bindings ex
       (filter (λ b, interfaces.GetQueue b ≠ queueName) (exchange.bindings ex)))
  ∧ length (fst (exchange.RemoveQueueBindings ex queueName))
    + length (exchange.bindings (snd (exchange.RemoveQueueBindings ex queueName)))
    = length (exchange.bindings ex).
Proof.
  assert (Heq : exchange.RemoveQueueBindings ex queueName
    = (filter (λ b, interfaces.GetQueue b = queueName) (exchange.bindings ex),
       exchange.set_bindings ex
         (filter (λ b, interfaces.GetQueue b ≠ queueName) (exchange.bindings ex)))).
  { unfold exchange.RemoveQueueBindings. by rewrite RemoveQueueBindings_range_spec. }
  split; [done|]. rewrite Heq. simpl. apply filter_queue_length.
Qed.

Lemma binding_euclid_remaining bs rmBind :
  (∀ a b c, interfaces.Equal a c = true → interfaces.Equal b c = true →
            interfaces.Equal a b = true) →
  exchange.distinct bs →
  ∀ b, b ∈ exchange.RemoveBinding_range bs rmBind → interfaces.Equal b rmBind = false.
Proof.
  intros Heuclid. induction bs as [|bind bs IH]; simpl.
  - intros _ b Hb. by apply elem_of_nil in Hb.
  - intros [Hbind Hd] b Hb.
    destruct (interfaces.Equal bind rmBind) eqn:Heq.
    + destruct (interfaces.Equal b rmBind) eqn:Hb'; [|done].
      rewrite <- (Hbind b Hb). symmetry. by apply (Heuclid bind b rmBind).
    + apply elem_of_cons in Hb as [-> | Hb]; [done|by apply IH].
Qed.

(** X4.  When [Equal] relates any two bindings that it relates to a third,
    and no binding of the slice equals a later one, RemoveBinding leaves no
    binding that equals [rmBind]: a following AppendBinding of [rmBind]
    appends it. *)
Theorem RemoveBinding_leaves_none_equal ex rmBind :
  (∀ a b c, interfaces.Equal a c = true → interfaces.Equal b c = true →
            interfaces.Equal a b = true) →
  exchange.distinct (exchange.bindings ex) →
  (∀ b, b ∈ exchange.bindings (exchange.RemoveBinding ex rmBind) →
        interfaces.Equal b rmBind = false)
  ∧ exchange.bindings (exchange.AppendBinding (exchange.RemoveBinding ex rmBind) rmBind)
    = exchange.bindings (exchange.RemoveBinding ex rmBind) ++ [rmBind].
Proof.
  intros Heuclid Hd.
  assert (Hnone : ∀ b, b ∈ exchange.bindings (exchange.RemoveBinding ex rmBind) →
                       interfaces.Equal b rmBind = false).
  { intros b Hb. by eapply binding_euclid_remaining. }
  split; [done|]. rewrite AppendBinding_bindings.
  by rewrite (proj2 (AppendBinding_range_false _ _) Hnone).
Qed.

End BindingSet.

Lemma binding_Equal_true (a b : binding.t) : binding.Equal a b = true ↔ a = b.
Proof.
  unfold binding.Equal. rewrite !andb_true_iff, !String.eqb_eq.
  destruct a, b; simpl. split; [intros [[-> ->] ->]; done | intros [= -> -> ->]; done].
Qed.

Lemma binding_Equal_euclid (a b c : binding.t) :
  interfaces.Equal a c = true → interfaces.Equal b c = true → interfaces.Equal a b = true.
Proof.
  simpl. rewrite !binding_Equal_true. by intros -> ->.
Qed.

Lemma RemoveBinding_removes_first_witness :
  exchange.RemoveBinding sample.fanout_123 (sample.bind "logs" "" "q2")
  = exchange.set_bindings sample.fanout_123
      [sample.bind "logs" "" "q1"; sample.bind "logs" "" "q3"]
  ∧ exchange.RemoveBinding sample.fanout_123 (sample.bind "logs" "" "q7")
    = sample.fanout_123.
Proof.
  split.
  - apply (proj1 (RemoveBinding_removes_first sample.fanout_123
                    (sample.bind "logs" "" "q2"))
             [sample.bind "logs" "" "q1"] (sample.bind "logs" "" "q2")
             [sample.bind "logs" "" "q3"]).
    + reflexivity.
    + intros b Hb. apply list_elem_of_singleton in Hb as ->. reflexivity.
    + reflexivity.
  - apply (proj2 (RemoveBinding_removes_first sample.fanout_123
                    (sample.bind "logs" "" "q7"))).
    intros b Hb.
    repeat (apply elem_of_cons in Hb as [-> | Hb]; [reflexivity|]).
    by apply elem_of_nil in Hb.
Defined.

Lemma AppendBinding_then_RemoveBinding_witness :
  exchange.AppendBinding sample.direct_ab (sample.bind "orders" "c" "q3")
  = exchange.set_bindings sample.direct_ab
      (exchange.bindings sample.direct_ab ++ [sample.bind "orders" "c" "q3"])
  ∧ exchange.RemoveBinding
      (exchange.AppendBinding sample.direct_ab (sample.bind "orders" "c" "q3"))
      (sample.bind "orders" "c" "q3")
    = sample.direct_ab.
Proof.
  apply (AppendBinding_then_RemoveBinding sample.direct_ab (sample.bind "orders" "c" "q3")).
  - intros b Hb.
    repeat (apply elem_of_cons in Hb as [-> | Hb]; [reflexivity|]).
    by apply elem_of_nil in Hb.
  - reflexivity.
Defined.

Lemma RemoveBinding_leaves_none_equal_witness :
  (∀ b, b ∈ exchange.bindings
              (exchange.RemoveBinding sample.fanout_123 (sample.bind "logs" "" "q2")) →
        interfaces.Equal b (sample.bind "logs" "" "q2") = false)
  ∧ exchange.bindings
      (exchange.AppendBinding
         (exchange.RemoveBinding sample.fanout_123 (sample.bind "logs" "" "q2"))
         (sample.bind "logs" "" "q2"))
    = exchange.bindings
        (exchange.RemoveBinding sample.fanout_123 (sample.bind "logs" "" "q2"))
      ++ [sample.bind "logs" "" "q2"].
Proof.
  apply (RemoveBinding_leaves_none_equal sample.fanout_123 (sample.bind "logs" "" "q2")).
  - apply binding_Equal_euclid.
  - apply reachable_distinct. repeat constructor.
Defined.

Section RoutingSound.
Context {B : Type} `{!interfaces.Binding B}.
Implicit Types (ex : exchange.Exchange B) (bs : list B) (message : amqp.Message.t).
Implicit Types (matchedQueues : gmap string bool) (q : string).

Lemma GetMatchedQueues_fanout_lookup bs message matchedQueues q :
  exchange.GetMatchedQueues_fanout bs message matchedQueues !! q
  = if existsb (λ b, interfaces.MatchFanout b (amqp.Message.Exchange message)
                     && String.eqb (interfaces.GetQueue b) q) bs
    then Some true else matchedQueues !! q.
Proof.
  revert matchedQueues. induction bs as [|b bs IH]; intros matchedQueues; simpl; [done|].
  rewrite IH.
  destruct (existsb _ bs); [by rewrite orb_true_r|]. rewrite orb_false_r.
  destruct (interfaces.MatchFanout b _); simpl; [|done].
  destruct (String.eqb_spec (interfaces.GetQueue b) q) as [->|Hne].
  - by rewrite lookup_insert_eq.
  - by rewrite lookup_insert_ne.
Qed.

Lemma GetMatchedQueues_topic_lookup bs message matchedQueues q :
  exchange.GetMatchedQueues_topic bs message matchedQueues !! q
  = if existsb (λ b, interfaces.MatchTopic b (amqp.Message.Exchange message)
                                               (amqp.Message.RoutingKey message)
                     && String.eqb (interfaces.GetQueue b) q) bs
    then Some true else matchedQueues !! q.
Proof.
  revert matchedQueues. induction bs as [|b bs IH]; intros matchedQueues; simpl; [done|].
  rewrite IH.
  destruct (existsb _ bs); [by rewrite orb_true_r|]. rewrite orb_false_r.
  destruct (interfaces.MatchTopic b _ _); simpl; [|done].
  destruct (String.eqb_spec (interfaces.GetQueue b) q) as [->|Hne].
  - by rewrite lookup_insert_eq.
  - by rewrite lookup_insert_ne.
Qed.

Lemma GetMatchedQueues_direct_lookup bs message q (v : bool) :
  exchange.GetMatchedQueues_direct bs message ∅ !! q = Some v →
  v = true
  ∧ ∃ bind, bind ∈ bs ∧ interfaces.GetQueue bind = q
            ∧ interfaces.MatchDirect bind (amqp.Message.Exchange message)
                                          (amqp.Message.RoutingKey message) = true.
Proof.
  induction bs as [|b bs IH]; simpl; [done|].
  destruct (interfaces.MatchDirect b _ _) eqn:Hm.
  - destruct (decide (interfaces.GetQueue b = q)) as [<-|Hne].
    + rewrite lookup_insert_eq. intros [= <-]. split; [done|].
      exists b. split; [left|done].
    + by rewrite lookup_insert_ne.
  - intros Hl. destruct (IH Hl) as (Hv & bind & Hin & Hq & Hmatch).
    split; [done|]. exists bind. split; [by right|done].
Qed.

Lemma existsb_queue bs (P : B → bool) q :
  existsb (λ b, P b && String.eqb (interfaces.GetQueue b) q) bs = true
  ↔ ∃ bind, bind ∈ bs ∧ P bind = true ∧ interfaces.GetQueue bind = q.
Proof.
  rewrite existsb_exists. split.
  - intros (bind & Hin & Hb). apply andb_true_iff in Hb as [HP Hq].
    apply String.eqb_eq in Hq. exists bind. by rewrite list_elem_of_In.
  - intros (bind & Hin & HP & Hq). exists bind. rewrite <- list_elem_of_In.
    split; [done|]. rewrite HP. simpl. by apply String.eqb_eq.
Qed.

(** X5.  On a fanout exchange the routing query marks exactly the queues of
    the bindings that MatchFanout accepts for the exchange of the message,
    and on a topic exchange exactly the queues of the bindings that
    MatchTopic accepts for its exchange and routing key: every such binding
    counts, not only the first. *)
Theorem GetMatchedQueues_fanout_topic_all ex message q :
  (exchange.exType ex = exchange.ExTypeFanout →
   (exchange.GetMatchedQueues ex message !! q = Some true
    ↔ ∃ bind, bind ∈ exchange.bindings ex
              ∧ interfaces.MatchFanout bind (amqp.Message.Exchange message) = true
              ∧ interfaces.GetQueue bind = q))
  ∧ (exchange.exType ex = exchange.ExTypeTopic →
     (exchange.GetMatchedQueues ex message !! q = Some true
      ↔ ∃ bind, bind ∈ exchange.bindings ex
                ∧ interfaces.MatchTopic bind (amqp.Message.Exchange message)
                                             (amqp.Message.RoutingKey message) = true
                ∧ interfaces.GetQueue bind = q)).
Proof.
  split; intros Hty; unfold exchange.GetMatchedQueues; rewrite Hty; simpl.
  - rewrite GetMatchedQueues_fanout_lookup, lookup_empty.
    rewrite <- (existsb_queue _ (λ b, interfaces.MatchFanout b _)).
    by destruct (existsb _ _).
  - rewrite GetMatchedQueues_topic_lookup, lookup_empty.
    rewrite <- (existsb_queue _ (λ b, interfaces.MatchTopic b _ _)).
    by destruct (existsb _ _).
Qed.

Lemma GetMatchedQueues_bound ex message q (v : bool) :
  exchange.GetMatchedQueues ex message !! q = Some v →
  v = true ∧ ∃ bind, bind ∈ exchange.bindings ex ∧ interfaces.GetQueue bind = q.
Proof.
  unfold exchange.GetMatchedQueues. repeat case_decide.
  - intros Hl. apply GetMatchedQueues_direct_lookup in Hl as (Hv & bind & Hin & Hq & _).
    eauto.
  - rewrite GetMatchedQueues_fanout_lookup, lookup_empty.
    destruct (existsb _ _) eqn:He; [|done]. intros [= <-]. split; [done|].
    apply existsb_queue in He as (bind & Hin & _ & Hq). eauto.
  - rewrite GetMatchedQueues_topic_lookup, lookup_empty.
    destruct (existsb _ _) eqn:He; [|done]. intros [= <-]. split; [done|].
    apply existsb_queue in He as (bind & Hin & _ & Hq). eauto.
  - by rewrite lookup_empty.
Qed.

(** X6.  Whatever the type of the exchange, a queue that the routing query
    returns is the queue of one of the exchange's bindings, and the value
    stored for it in the map is true. *)
Theorem GetMatchedQueues_only_bound_queues ex message q (v : bool) :
  exchange.GetMatchedQueues ex message !! q = Some v →
  v = true ∧ ∃ bind, bind ∈ exchange.bindings ex ∧ interfaces.GetQueue bind = q.
Proof. apply GetMatchedQueues_bound. Qed.

Lemma filter_queue_twice bs (queueName : string) :
  filter (λ b, interfaces.GetQueue b = queueName)
    (filter (λ b, interfaces.GetQueue b ≠ queueName) bs) = []
  ∧ filter (λ b, interfaces.GetQueue b ≠ queueName)
      (filter (λ b, interfaces.GetQueue b ≠ queueName) bs)
    = filter (λ b, interfaces.GetQueue b ≠ queueName) bs.
Proof.
  induction bs as [|b bs [IH1 IH2]]; [done|].
  destruct (decide (interfaces.GetQueue b = queueName)) as [Hq|Hq].
  - rewrite (filter_cons_False (λ b, interfaces.GetQueue b ≠ queueName) b)
      by (intros Hn; by apply Hn).
    done.
  - rewrite (filter_cons_True (λ b, interfaces.GetQueue b ≠ queueName) b) by done.
    rewrite (filter_cons_False (λ b, interfaces.GetQueue b = queueName) b) by done.
    rewrite (filter_cons_True (λ b, interfaces.GetQueue b ≠ queueName) b) by done.
    by rewrite IH1, IH2.
Qed.

Lemma RemoveQueueBindings_snd ex (queueName : string) :
  snd (exchange.RemoveQueueBindings ex queueName)
  = exchange.set_bindings ex
      (filter (λ b, interfaces.GetQueue b ≠ queueName) (exchange.bindings ex)).
Proof.
  unfold exchange.RemoveQueueBindings. by rewrite RemoveQueueBindings_range_spec.
Qed.

(** X7.  After RemoveQueueBindings for a queue, no message is routed to that
    queue by the exchange, and a second RemoveQueueBindings for it removes
    nothing and leaves the exchange as it is. *)
Theorem RemoveQueueBindings_unroutes ex (queueName : string) :
  let ex' := snd (exchange.RemoveQueueBindings ex queueName) in
  (∀ message, exchange.GetMatchedQueues ex' message !! queueName = None)
  ∧ exchange.RemoveQueueBindings ex' queueName = ([], ex').
Proof.
  intros ex'. subst ex'. split.
  - intros message.
    destruct (exchange.GetMatchedQueues _ message !! queueName) as [v|] eqn:Hl; [|done].
    apply GetMatchedQueues_bound in Hl as (_ & bind & Hin & Hq).
    rewrite RemoveQueueBindings_bindings in Hin.
    apply list_elem_of_filter in Hin as [Hne _]. done.
  - rewrite RemoveQueueBindings_snd. unfold exchange.RemoveQueueBindings.
    rewrite RemoveQueueBindings_range_spec. simpl.
    destruct (filter_queue_twice (exchange.bindings ex) queueName) as [-> ->].
    reflexivity.
Qed.

End RoutingSound.

Lemma GetMatchedQueues_fanout_topic_all_witness :
  (exchange.GetMatchedQueues sample.fanout_123 (sample.msg "logs" "k") !! "q2"%string
   = Some true
   ↔ ∃ bind, bind ∈ exchange.bindings sample.fanout_123
             ∧ interfaces.MatchFanout bind "logs" = true
             ∧ interfaces.GetQueue bind = "q2"%string).
Proof.
  apply (proj1 (GetMatchedQueues_fanout_topic_all sample.fanout_123
                  (sample.msg "logs" "k") "q2")).
  reflexivity.
Defined.

Lemma GetMatchedQueues_only_bound_queues_witness :
  true = true
  ∧ ∃ bind, bind ∈ exchange.bindings sample.fanout_123
            ∧ interfaces.GetQueue bind = "q3"%string.
Proof.
  apply (GetMatchedQueues_only_bound_queues sample.fanout_123
           (sample.msg "logs" "k") "q3" true).
  vm_compute. reflexivity.
Defined.

Section Attributes.
Context {B : Type} `{!interfaces.Binding B}.
Implicit Types (ex exB receiver : exchange.Exchange B).

(** X8.  EqualWithErr returns nil exactly when the two exchanges have the
    same type, durable, autoDelete and internal; name, system, arguments and
    bindings play no part.  So it returns nil for an exchange and itself,
    and in one direction exactly when in the other. *)
Theorem EqualWithErr_nil_iff ex exB :
  (exchange.EqualWithErr ex exB = None
   ↔ exchange.exType ex = exchange.exType exB
     ∧ exchange.durable ex = exchange.durable exB
     ∧ exchange.autoDelete ex = exchange.autoDelete exB
     ∧ exchange.internal ex = exchange.internal exB)
  ∧ exchange.EqualWithErr ex ex = None
  ∧ (exchange.EqualWithErr ex exB = None ↔ exchange.EqualWithErr exB ex = None).
Proof.
  split; [apply EqualWithErr_equal|]. split.
  - by apply EqualWithErr_equal.
  - rewrite !EqualWithErr_equal. intuition congruence.
Qed.

(** X9.  The record of an exchange depends on its name and type only: two
    exchanges with the same name and type have the same record, whatever
    their flags, arguments and bindings.  Unmarshal assigns name, type and
    durable and nothing else: autoDelete, internal, system, arguments and
    bindings of the decoded exchange are those the receiver had. *)
Theorem Marshal_name_and_type_only ex exB receiver
    (protoVersion protoVersion' : string) (data : list byte) :
  (exchange.Name ex = exchange.Name exB →
   exchange.exType ex = exchange.exType exB →
   exchange.Marshal ex protoVersion = exchange.Marshal exB protoVersion')
  ∧ exchange.autoDelete (exchange.Unmarshal receiver data) = exchange.autoDelete receiver
  ∧ exchange.internal (exchange.Unmarshal receiver data) = exchange.internal receiver
  ∧ exchange.system (exchange.Unmarshal receiver data) = exchange.system receiver
  ∧ exchange.arguments (exchange.Unmarshal receiver data) = exchange.arguments receiver
  ∧ exchange.bindings (exchange.Unmarshal receiver data) = exchange.bindings receiver.
Proof.
  split.
  - intros Hn Ht. unfold exchange.Marshal. by rewrite Hn, Ht.
  - unfold exchange.Unmarshal.
    destruct (amqp.ReadShortstr data) as [[name e1] buf].
    by destruct (amqp.ReadOctet buf) as [[t e2] buf'].
Qed.

End Attributes.

Lemma Marshal_name_and_type_only_witness :
  exchange.Marshal sample.volatile "0-9-1"
  = exchange.Marshal
      (exchange.AppendBinding
         (exchange.NewExchange "logs" exchange.ExTypeFanout true false false true)
         (sample.bind "logs" "" "q1"))
      "0-9-1".
Proof.
  apply (proj1 (Marshal_name_and_type_only sample.volatile
                  (exchange.AppendBinding
                     (exchange.NewExchange "logs" exchange.ExTypeFanout true false false true)
                     (sample.bind "logs" "" "q1"))
                  sample.blank "0-9-1" "0-9-1" []));
    reflexivity.
Defined.

(** * Further properties of the storage wrapper *)

Lemma Get_lookup (storage : storage.BuntDB) (key : string) :
  buntdb.closed (storage.db storage) = false →
  storage.Get storage key
  = (list_byte_of_string <$> buntdb.committed (storage.db storage) !! key, None).
Proof.
  intros Hopen.
  destruct (buntdb.committed (storage.db storage) !! key) as [val|] eqn:Hval.
  - by apply Get_found.
  - by apply Get_not_found.
Qed.

(** X10.  Set on an open database whose commit reaches the file returns no
    error; afterwards Get of the key returns the value that was set, and Get
    of every other key returns what it returned before.  On a closed
    database, or when the write of the commit fails, Set returns an error
    and the store is the one before the call. *)
Theorem Set_then_Get (storage : storage.BuntDB) (persist : bool)
    (key : string) (value : list byte) :
  let result := storage.Set_ storage persist key value in
  (buntdb.closed (storage.db storage) = false → persist = true →
   snd result = None
   ∧ storage.Get (fst result) key = (Some value, None)
   ∧ ∀ key', key' ≠ key → storage.Get (fst result) key' = storage.Get storage key')
  ∧ (buntdb.closed (storage.db storage) = true ∨ persist = false →
     (∃ err, snd result = Some err) ∧ fst result = storage).
Proof.
  destruct storage as [[closed committed]]. simpl.
  unfold storage.Set_, buntdb.Update, buntdb.Set_. simpl.
  split.
  - intros -> ->. destruct (committed !! key); simpl.
    all: split; [done|]; split.
    all: try (rewrite Get_lookup by done; simpl;
              by rewrite lookup_insert_eq; simpl; rewrite list_byte_of_string_of_list_byte).
    all: intros key' Hne; rewrite !Get_lookup by done; simpl;
         by rewrite lookup_insert_ne.
  - intros [-> | ->].
    + split; [eauto|done].
    + destruct closed; [split; [eauto|done]|].
      destruct (committed !! key); simpl; (split; [eauto|done]).
Qed.

Lemma Set_then_Get_witness :
  let result := storage.Set_ sample.store_k1 true "k2" (list_byte_of_string "v2") in
  snd result = None
  ∧ storage.Get (fst result) "k2" = (Some (list_byte_of_string "v2"), None)
  ∧ ∀ key', key' ≠ "k2"%string → storage.Get (fst result) key' = storage.Get sample.store_k1 key'.
Proof.
  apply (proj1 (Set_then_Get sample.store_k1 true "k2" (list_byte_of_string "v2")));
    reflexivity.
Defined.

(** X11.  Del of a key that has no committed value returns ErrNotFound and
    leaves the store as it is.  Del of a key that has one, on an open
    database whose commit reaches the file, returns no error; afterwards Get
    of the key finds nothing and Get of every other key returns what it
    returned before.  On a closed database Del returns ErrDatabaseClosed and
    the store is unchanged. *)
Theorem Del_then_Get (storage : storage.BuntDB) (persist : bool) (key : string) :
  let result := storage.Del storage persist key in
  (buntdb.closed (storage.db storage) = false →
   buntdb.committed (storage.db storage) !! key = None →
   result = (storage, Some buntdb.ErrNotFound))
  ∧ (buntdb.closed (storage.db storage) = false →
     is_Some (buntdb.committed (storage.db storage) !! key) →
     persist = true →
     snd result = None
     ∧ storage.Get (fst result) key = (None, None)
     ∧ ∀ key', key' ≠ key → storage.Get (fst result) key' = storage.Get storage key')
  ∧ (buntdb.closed (storage.db storage) = true →
     result = (storage, Some buntdb.ErrDatabaseClosed)).
Proof.
  destruct storage as [[closed committed]]. simpl.
  unfold storage.Del, buntdb.Update, buntdb.Delete. simpl.
  split; [|split].
  - intros -> ->. done.
  - intros -> [val ->] ->. simpl. split; [done|]. split.
    + rewrite Get_lookup by done. simpl. by rewrite lookup_delete_eq.
    + intros key' Hne. rewrite !Get_lookup by done. simpl.
      by rewrite lookup_delete_ne.
  - intros ->. done.
Qed.

Lemma Del_then_Get_witness :
  storage.Del sample.store_k1 true "k2" = (sample.store_k1, Some buntdb.ErrNotFound)
  ∧ snd (storage.Del sample.store_k1 true "k1") = None
  ∧ storage.Get (fst (storage.Del sample.store_k1 true "k1")) "k1" = (None, None).
Proof.
  split.
  - apply (proj1 (Del_then_Get sample.store_k1 true "k2")); reflexivity.
  - destruct (proj1 (proj2 (Del_then_Get sample.store_k1 true "k1")) eq_refl
                (ex_intro _ "v1"%string eq_refl) eq_refl) as (Herr & Hget & _).
    split; [exact Herr|exact Hget].
Defined.

(** X12.  Set is ProcessBatch of the one set operation.  Del is ProcessBatch
    of the one delete operation when the key has a committed value or the
    database is closed; on an open database and a key without a committed
    value Del returns ErrNotFound, while the batch drops the error of
    tx.Delete and commits. *)
Theorem single_operation_batch (storage : storage.BuntDB) (persist : bool)
    (key : string) (value : list byte) :
  storage.Set_ storage persist key value
  = storage.ProcessBatch storage persist
      [interfaces.Operation.mk interfaces.OpSet key value]
  ∧ (is_Some (buntdb.committed (storage.db storage) !! key)
     ∨ buntdb.closed (storage.db storage) = true →
     storage.Del storage persist key
     = storage.ProcessBatch storage persist
         [interfaces.Operation.mk interfaces.OpDel key value])
  ∧ (buntdb.closed (storage.db storage) = false →
     buntdb.committed (storage.db storage) !! key = None →
     storage.Del storage true key = (storage, Some buntdb.ErrNotFound)
     ∧ storage.ProcessBatch storage true
         [interfaces.Operation.mk interfaces.OpDel key value]
       = (storage, None)).
Proof.
  destruct storage as [[closed committed]]. simpl.
  unfold storage.Set_, storage.Del, storage.ProcessBatch, buntdb.Update. simpl.
  unfold storage.ProcessBatch_op, buntdb.Set_, buntdb.Delete. simpl.
  split; [|split].
  - destruct closed; [done|]. by destruct (committed !! key).
  - intros [[val Hval] | ->]; [|done]. rewrite Hval. by destruct closed.
  - intros -> ->. done.
Qed.

Lemma single_operation_batch_witness :
  storage.Del sample.store_k1 false "k1"
  = storage.ProcessBatch sample.store_k1 false [sample.op_del "k1"]
  ∧ storage.Del sample.store_k1 true "k2" = (sample.store_k1, Some buntdb.ErrNotFound)
  ∧ storage.ProcessBatch sample.store_k1 true [sample.op_del "k2"]
    = (sample.store_k1, None).
Proof.
  destruct (single_operation_batch sample.store_k1 false "k1" []) as (_ & Hdel & _).
  destruct (single_operation_batch sample.store_k1 true "k2" []) as (_ & _ & Hmiss).
  split; [|apply Hmiss; reflexivity].
  apply Hdel. left. by exists "v1"%string.
Defined.

#[local] Instance key_le_total : Total buntdb.key_le.
Proof. intros p q. apply String.leb_total. Qed.

Lemma Ascend_range_all {A : Type} (pairs : list (string * string))
    (fn : string → string → A → A) (captured : A) :
  buntdb.Ascend_range pairs (λ key value captured, (fn key value captured, true)) captured
  = foldl (λ captured p, fn (fst p) (snd p) captured) captured pairs.
Proof.
  revert captured. induction pairs as [|[key value] pairs IH]; intros captured; simpl; [done|].
  apply IH.
Qed.

Lemma ascending_spec (tx : buntdb.Tx) :
  Sorted buntdb.key_le (buntdb.ascending tx)
  ∧ NoDup (buntdb.ascending tx).*1
  ∧ ∀ key value, (key, value) ∈ buntdb.ascending tx ↔ tx !! key = Some value.
Proof.
  unfold buntdb.ascending. split; [apply Sorted_merge_sort, _|]. split.
  - rewrite merge_sort_Permutation. apply NoDup_fst_map_to_list.
  - intros key value. rewrite merge_sort_Permutation. apply elem_of_map_to_list.
Qed.

(** X13.  Iterate on an open database calls [fn] once for every committed
    pair and for nothing else, by ascending key, with the octets of the key
    and of the value; no call is skipped and the tour is never cut short.  On
    a closed database [fn] is not called, and the caller is not told. *)
Theorem Iterate_visits_all (storage : storage.BuntDB) :
  (buntdb.closed (storage.db storage) = true →
   ∀ (A : Type) (fn : list byte → list byte → A → A) (captured : A),
     storage.Iterate storage fn captured = captured)
  ∧ (buntdb.closed (storage.db storage) = false →
     ∃ pairs : list (string * string),
       Sorted buntdb.key_le pairs
       ∧ NoDup pairs.*1
       ∧ (∀ key value,
            (key, value) ∈ pairs
            ↔ buntdb.committed (storage.db storage) !! key = Some value)
       ∧ ∀ (A : Type) (fn : list byte → list byte → A → A) (captured : A),
           storage.Iterate storage fn captured
           = foldl (λ captured p,
                      fn (list_byte_of_string (fst p)) (list_byte_of_string (snd p))
                         captured)
               captured pairs).
Proof.
  unfold storage.Iterate, buntdb.View, buntdb.Ascend. split.
  - intros -> A fn captured. done.
  - intros ->. exists (buntdb.ascending (buntdb.committed (storage.db storage))).
    destruct (ascending_spec (buntdb.committed (storage.db storage))) as (Hs & Hn & Hin).
    repeat split; try done; try apply Hin.
    intros A fn captured. simpl.
    apply (Ascend_range_all _
             (λ key value captured,
                fn (list_byte_of_string key) (list_byte_of_string value) captured)).
Qed.

Lemma Iterate_visits_all_witness :
  ∃ pairs : list (string * string),
    Sorted buntdb.key_le pairs
    ∧ NoDup pairs.*1
    ∧ (∀ key value,
         (key, value) ∈ pairs
         ↔ buntdb.committed (storage.db sample.store_k1) !! key = Some value)
    ∧ ∀ (A : Type) (fn : list byte → list byte → A → A) (captured : A),
        storage.Iterate sample.store_k1 fn captured
        = foldl (λ captured p,
                   fn (list_byte_of_string (fst p)) (list_byte_of_string (snd p))
                      captured)
            captured pairs.
Proof.
  apply (proj2 (Iterate_visits_all sample.store_k1)). reflexivity.
Defined.

(** Iterate after a committed batch, collecting the keys: ascending. *)
Example Iterate_batch4 :
  storage.Iterate (fst (storage.ProcessBatch sample.store_k1 true sample.batch4))
    (λ key value keys, keys ++ [string_of_list_byte key]) []
  = ["a"; "b"]%string.
Proof. vm_compute. reflexivity. Qed.

(** * Further properties of exchangeDeclare *)

Section DeclareOutcome.
Context {B : Type} `{!interfaces.Binding B}.
Variables ClassIdentifier MethodIdentifier : amqp.ExchangeDeclare.t → N.
Implicit Types (channel : server.Channel B) (method : amqp.ExchangeDeclare.t).

Ltac declare_cases method channel :=
  unfold server.exchangeDeclare;
  destruct (exchange.GetExchangeTypeID (amqp.ExchangeDeclare.Type_ method))
    as [exTypeId [tyErr|]]; simpl; try done;
  destruct (String.eqb (amqp.ExchangeDeclare.Exchange method) ""); simpl; try done;
  destruct (amqp.ExchangeDeclare.Passive method); simpl;
  [ destruct (amqp.ExchangeDeclare.NoWait method); simpl; try done;
    destruct (server.GetExchange (server.vhost channel)
                (amqp.ExchangeDeclare.Exchange method)); simpl; try done
  | destruct (String.prefix "amq." (amqp.ExchangeDeclare.Exchange method)); simpl;
    try done;
    destruct (server.GetExchange (server.vhost channel)
                (amqp.ExchangeDeclare.Exchange method)) as [existing|]; simpl; try done;
    try (destruct (exchange.EqualWithErr existing _); simpl; try done) ].

(** X14.  A declare that returns an error has changed nothing: the registry
    of the virtual host is the one before the call and no method was sent to
    the client. *)
Theorem exchangeDeclare_error_no_effect channel method (err : amqp.Error) :
  fst (server.exchangeDeclare ClassIdentifier MethodIdentifier channel method) = Some err →
  snd (server.exchangeDeclare ClassIdentifier MethodIdentifier channel method) = channel.
Proof. declare_cases method channel. Qed.

(** X15.  What a declare sends: nothing when it returns an error; nothing
    when it is passive with NoWait set; otherwise, on success, exactly one
    ExchangeDeclareOk after what was sent before.  NoWait is looked at for a
    passive declare only: a declare that is not passive and succeeds sends
    ExchangeDeclareOk also when NoWait is set. *)
Theorem exchangeDeclare_sent channel method :
  let result := server.exchangeDeclare ClassIdentifier MethodIdentifier channel method in
  server.sent (snd result)
  = match fst result with
    | Some _ => server.sent channel
    | None =>
        if amqp.ExchangeDeclare.Passive method && amqp.ExchangeDeclare.NoWait method
        then server.sent channel
        else server.sent channel ++ [amqp.ExchangeDeclareOk]
    end.
Proof. simpl. declare_cases method channel. Qed.

(** X16.  A declare leaves the registry of the virtual host as it is when it
    is passive, and when an exchange of that name is registered: a passive
    declare creates nothing, and a registered exchange is never replaced,
    whether the declare agrees with it or not. *)
Theorem exchangeDeclare_keeps_registered channel method :
  amqp.ExchangeDeclare.Passive method = true
  ∨ is_Some (server.GetExchange (server.vhost channel)
               (amqp.ExchangeDeclare.Exchange method)) →
  server.vhost (snd (server.exchangeDeclare ClassIdentifier MethodIdentifier channel method))
  = server.vhost channel.
Proof.
  intros Hcase. unfold server.exchangeDeclare.
  destruct (exchange.GetExchangeTypeID (amqp.ExchangeDeclare.Type_ method))
    as [exTypeId [tyErr|]]; simpl; [done|].
  destruct (String.eqb (amqp.ExchangeDeclare.Exchange method) ""); simpl; [done|].
  destruct (amqp.ExchangeDeclare.Passive method); simpl.
  - destruct (amqp.ExchangeDeclare.NoWait method); simpl; [done|].
    by destruct (server.GetExchange _ _).
  - destruct Hcase as [Hp | [existing Hex]]; [done|]. rewrite Hex.
    destruct (String.prefix "amq." _); simpl; [done|].
    by destruct (exchange.EqualWithErr existing _).
Qed.

(** X17.  The checks of a declare come in a fixed order.  An unknown type
    alias is rejected with NotImplemented and the text of GetExchangeTypeID,
    whatever the name and the flags of the request; with a known alias, an
    empty exchange name is rejected with CommandInvalid, also for a passive
    declare.  The channel is unchanged in both cases. *)
Theorem exchangeDeclare_validation channel method :
  let result := server.exchangeDeclare ClassIdentifier MethodIdentifier channel method in
  (amqp.ExchangeDeclare.Type_ method ∉ ["direct"; "fanout"; "topic"; "headers"]%string →
   result
   = (Some (amqp.NewChannelError amqp.NotImplemented
              ("undefined exchange alias '" ++ amqp.ExchangeDeclare.Type_ method ++ "'")%string
              (ClassIdentifier method) (MethodIdentifier method)), channel))
  ∧ (amqp.ExchangeDeclare.Type_ method ∈ ["direct"; "fanout"; "topic"; "headers"]%string →
     amqp.ExchangeDeclare.Exchange method = ""%string →
     result
     = (Some (amqp.NewChannelError amqp.CommandInvalid "exchange name is requred"
                (ClassIdentifier method) (MethodIdentifier method)), channel)).
Proof.
  simpl. split.
  - intros Hn. unfold server.exchangeDeclare.
    by rewrite (GetExchangeTypeID_unknown _ Hn).
  - intros Hin Hname. unfold server.exchangeDeclare. rewrite Hname.
    repeat (apply elem_of_cons in Hin as [-> | Hin]; [reflexivity|]).
    by apply elem_of_nil in Hin.
Qed.

End DeclareOutcome.

Lemma exchangeDeclare_error_no_effect_witness :
  snd (server.exchangeDeclare sample.ids sample.ids sample.channel_orders
         (sample.declare "orders" "topic" false true))
  = sample.channel_orders.
Proof.
  apply (exchangeDeclare_error_no_effect sample.ids sample.ids sample.channel_orders
           (sample.declare "orders" "topic" false true)
           (amqp.NewChannelError amqp.PreconditionFailed
              "inequivalent arg 'type' for exchange 'orders': received 'topic' but current is 'direct'"
              0 0)).
  reflexivity.
Defined.

Lemma exchangeDeclare_keeps_registered_witness :
  server.vhost (snd (server.exchangeDeclare sample.ids sample.ids sample.channel_orders
                       (sample.declare "orders" "direct" false true)))
  = server.vhost sample.channel_orders.
Proof.
  apply (exchangeDeclare_keeps_registered sample.ids sample.ids sample.channel_orders
           (sample.declare "orders" "direct" false true)).
  right. exists sample.direct_ab. reflexivity.
Defined.

Lemma exchangeDeclare_validation_witness :
  server.exchangeDeclare sample.ids sample.ids sample.channel_orders
    (sample.declare "orders" "Direct" true true)
  = (Some (amqp.NewChannelError amqp.NotImplemented
             "undefined exchange alias 'Direct'" 0 0), sample.channel_orders)
  ∧ server.exchangeDeclare sample.ids sample.ids sample.channel_orders
      (sample.declare "" "direct" true true)
    = (Some (amqp.NewChannelError amqp.CommandInvalid "exchange name is requred" 0 0),
       sample.channel_orders).
Proof.
  split.
  - apply (proj1 (exchangeDeclare_validation sample.ids sample.ids sample.channel_orders
                    (sample.declare "orders" "Direct" true true))).
    intros Hin. repeat (apply elem_of_cons in Hin as [[=] | Hin]). by apply elem_of_nil in Hin.
  - apply (proj2 (exchangeDeclare_validation sample.ids sample.ids sample.channel_orders
                    (sample.declare "" "direct" true true))).
    + left.
    + reflexivity.
Defined.

(** * How binding changes and routing compose *)

Section RoutingCompose.
Context {B : Type} `{!interfaces.Binding B}.
Implicit Types (ex : exchange.Exchange B) (bs : list B) (message : amqp.Message.t).
Implicit Types (matchedQueues : gmap string bool) (q : string).

Lemma GetMatchedQueues_direct_app bs (later : list B) message matchedQueues :
  exchange.GetMatchedQueues_direct (bs ++ later) message matchedQueues
  = if existsb (λ b, interfaces.MatchDirect b (amqp.Message.Exchange message)
                                              (amqp.Message.RoutingKey message)) bs
    then exchange.GetMatchedQueues_direct bs message matchedQueues
    else exchange.GetMatchedQueues_direct later message matchedQueues.
Proof.
  induction bs as [|b bs IH]; simpl; [done|].
  by destruct (interfaces.MatchDirect b _ _).
Qed.

Lemma GetMatchedQueues_direct_no_match bs message matchedQueues :
  existsb (λ b, interfaces.MatchDirect b (amqp.Message.Exchange message)
                                         (amqp.Message.RoutingKey message)) bs = false →
  exchange.GetMatchedQueues_direct bs message matchedQueues = matchedQueues.
Proof.
  induction bs as [|b bs IH]; simpl; [done|].
  by destruct (interfaces.MatchDirect b _ _).
Qed.

Lemma existsb_sublist (P : B → bool) bs (part : list B) :
  sublist part bs → existsb P part = true → existsb P bs = true.
Proof.
  intros Hsub. rewrite !existsb_exists. intros (b & Hin & HP). exists b. split; [|done].
  apply list_elem_of_In. eapply elem_of_sublist; [|done]. by apply list_elem_of_In.
Qed.

(** X18.  AppendBinding takes no route away: a queue that the exchange
    routes a message to before the call is routed to after it, for every
    type of exchange.  On a direct exchange, a message that some binding
    matches is routed exactly as before: the new binding cannot win over an
    older one. *)
Theorem AppendBinding_keeps_routes ex (newBind : B) message q :
  (exchange.GetMatchedQueues ex message !! q = Some true →
   exchange.GetMatchedQueues (exchange.AppendBinding ex newBind) message !! q = Some true)
  ∧ (exchange.exType ex = exchange.ExTypeDirect →
     exchange.GetMatchedQueues ex message ≠ ∅ →
     exchange.GetMatchedQueues (exchange.AppendBinding ex newBind) message
     = exchange.GetMatchedQueues ex message).
Proof.
  unfold exchange.AppendBinding.
  destruct (exchange.AppendBinding_range (exchange.bindings ex) newBind); [done|].
  unfold exchange.GetMatchedQueues. simpl. split.
  - repeat case_decide; try done.
    + rewrite GetMatchedQueues_direct_app.
      destruct (existsb _ (exchange.bindings ex)) eqn:He; [done|].
      by rewrite GetMatchedQueues_direct_no_match, lookup_empty.
    + rewrite !GetMatchedQueues_fanout_lookup, existsb_app.
      by destruct (existsb _ (exchange.bindings ex)).
    + rewrite !GetMatchedQueues_topic_lookup, existsb_app.
      by destruct (existsb _ (exchange.bindings ex)).
  - intros Hd. rewrite !decide_True by done. rewrite GetMatchedQueues_direct_app.
    destruct (existsb _ (exchange.bindings ex)) eqn:He; [done|].
    by rewrite GetMatchedQueues_direct_no_match.
Qed.

(** X19.  On a fanout or topic exchange RemoveBinding and
    RemoveQueueBindings add no route: a queue that a message is routed to
    after the call was routed to before it. *)
Theorem remove_adds_no_route ex (rmBind : B) (queueName : string) message q :
  exchange.exType ex = exchange.ExTypeFanout ∨ exchange.exType ex = exchange.ExTypeTopic →
  (exchange.GetMatchedQueues (exchange.RemoveBinding ex rmBind) message !! q = Some true →
   exchange.GetMatchedQueues ex message !! q = Some true)
  ∧ (exchange.GetMatchedQueues (snd (exchange.RemoveQueueBindings ex queueName)) message
       !! q = Some true →
     exchange.GetMatchedQueues ex message !! q = Some true).
Proof.
  intros Hty. rewrite RemoveQueueBindings_snd.
  assert (Hsub1 : sublist (exchange.RemoveBinding_range (exchange.bindings ex) rmBind)
                    (exchange.bindings ex)) by apply RemoveBinding_range_sublist.
  assert (Hsub2 : sublist (filter (λ b, interfaces.GetQueue b ≠ queueName)
                             (exchange.bindings ex)) (exchange.bindings ex))
    by apply sublist_filter.
  unfold exchange.GetMatchedQueues, exchange.RemoveBinding. simpl.
  destruct Hty as [Hty | Hty]; rewrite Hty; simpl.
  - rewrite !GetMatchedQueues_fanout_lookup, !lookup_empty.
    split; intros Hl.
    + destruct (existsb _ (exchange.RemoveBinding_range _ _)) eqn:He; [|done].
      by rewrite (existsb_sublist _ _ _ Hsub1 He).
    + destruct (existsb _ (filter _ _)) eqn:He; [|done].
      by rewrite (existsb_sublist _ _ _ Hsub2 He).
  - rewrite !GetMatchedQueues_topic_lookup, !lookup_empty.
    split; intros Hl.
    + destruct (existsb _ (exchange.RemoveBinding_range _ _)) eqn:He; [|done].
      by rewrite (existsb_sublist _ _ _ Hsub1 He).
    + destruct (existsb _ (filter _ _)) eqn:He; [|done].
      by rewrite (existsb_sublist _ _ _ Hsub2 He).
Qed.

End RoutingCompose.

Lemma AppendBinding_keeps_routes_witness :
  exchange.GetMatchedQueues
    (exchange.AppendBinding sample.direct_ab (sample.bind "orders" "a" "q9"))
    (sample.msg "orders" "a")
  = exchange.GetMatchedQueues sample.direct_ab (sample.msg "orders" "a").
Proof.
  apply (proj2 (AppendBinding_keeps_routes sample.direct_ab
                  (sample.bind "orders" "a" "q9") (sample.msg "orders" "a") "q1")).
  - reflexivity.
  - intros Hempty.
    apply (f_equal (λ mq : gmap string bool, mq !! "q1"%string)) in Hempty.
    vm_compute in Hempty. discriminate Hempty.
Defined.

Lemma remove_adds_no_route_witness :
  exchange.GetMatchedQueues sample.fanout_123 (sample.msg "logs" "k") !! "q3"%string
  = Some true.
Proof.
  apply (proj1 (remove_adds_no_route sample.fanout_123 (sample.bind "logs" "" "q1")
                  "q2" (sample.msg "logs" "k") "q3" (or_introl eq_refl))).
  vm_compute. reflexivity.
Defined.

(** On a direct exchange a removal can bring a route in: with two bindings
    for one routing key, removing the older one hands the key to the other. *)
Example RemoveBinding_direct_reveals :
  let ex := exchange.AppendBinding sample.direct_ab (sample.bind "orders" "a" "q9") in
  exchange.GetMatchedQueues ex (sample.msg "orders" "a") = {[ "q1"%string := true ]}
  ∧ exchange.GetMatchedQueues
      (exchange.RemoveBinding ex (sample.bind "orders" "a" "q1"))
      (sample.msg "orders" "a")
    = {[ "q9"%string := true ]}.
Proof. split; vm_compute; reflexivity. Qed.

(** * Batches in sequence *)

Lemma ProcessBatch_range_app (batch later : list interfaces.Operation.t) (tx : buntdb.Tx) :
  storage.ProcessBatch_range (batch ++ later) tx
  = storage.ProcessBatch_range later (storage.ProcessBatch_range batch tx).
Proof.
  revert tx. induction batch as [|op batch IH]; intros tx; simpl; [done|]. apply IH.
Qed.

(** X20.  On an open database whose commits reach the file, one batch made
    of two batches one after the other leaves the store that the two
    batches, processed one after the other, leave; the empty batch commits
    and leaves the store as it is. *)
Theorem ProcessBatch_sequence (storage : storage.BuntDB)
    (batch later : list interfaces.Operation.t) :
  buntdb.closed (storage.db storage) = false →
  storage.ProcessBatch storage true (batch ++ later)
  = storage.ProcessBatch (fst (storage.ProcessBatch storage true batch)) true later
  ∧ storage.ProcessBatch storage true [] = (storage, None).
Proof.
  destruct storage as [[closed committed]]. simpl. intros ->.
  unfold storage.ProcessBatch, buntdb.Update. simpl.
  by rewrite ProcessBatch_range_app.
Qed.

Lemma ProcessBatch_sequence_witness :
  storage.ProcessBatch sample.store_k1 true (sample.batch4 ++ [sample.op_del "a"])
  = storage.ProcessBatch (fst (storage.ProcessBatch sample.store_k1 true sample.batch4))
      true [sample.op_del "a"]
  ∧ storage.ProcessBatch sample.store_k1 true [] = (sample.store_k1, None).
Proof.
  apply (ProcessBatch_sequence sample.store_k1 sample.batch4 [sample.op_del "a"]).
  reflexivity.
Defined.
